(** * Weather app (main.js): validation, cache and request orchestration

    A shallow embedding of [Validation.validateCity], [Cache] and the three
    [API] functions of main.js, together with the properties of the
    specification that concern them.

    Conventions of the embedding.
    - A JavaScript string is the list of its UTF-16 code units
      ([jsstring]); [length] is then the [.length] of the source.
    - A thrown [Error] is a value of type [Error], one constructor per
      [throw] site of the source and per built-in that can throw or reject.
    - [async] functions are run to completion one after the other: a
      computation is a function from the state of the page to an outcome
      and a new state.  The state holds the [Map] behind [Cache.data], the
      number of [Date.now()] readings taken so far and the log of the
      [fetch] calls made so far.  What the clock shows and what the network
      answers is given by the host ([Host]).  [console.log] and
      [console.error] are not modelled. *)

From Stdlib Require Import ZArith NArith List String Ascii Bool Lia.
From Stdlib Require Import SpecFloat.
From stdpp Require Import gmap.

Set Warnings "-register-all".

Local Open Scope N_scope.

(** ** Strings *)

Abbreviation jsstring := (list N).

(** The code units of a literal written with Basic Latin characters only. *)
Fixpoint units (s : string) : jsstring :=
  match s with
  | EmptyString => []
  | String a r => N_of_ascii a :: units r
  end.
Arguments units : simpl never.

(** WhiteSpace and LineTerminator code points of ECMAScript: the characters
    removed by [String.prototype.trim] and matched by [\s] in a regular
    expression. *)
Definition isWhiteSpace (c : N) : bool :=
  (c =? 0x09) || (c =? 0x0A) || (c =? 0x0B) || (c =? 0x0C) || (c =? 0x0D)
  || (c =? 0x20) || (c =? 0xA0) || (c =? 0x1680)
  || ((0x2000 <=? c) && (c <=? 0x200A))
  || (c =? 0x2028) || (c =? 0x2029) || (c =? 0x202F) || (c =? 0x205F)
  || (c =? 0x3000) || (c =? 0xFEFF).

Fixpoint trimStart (s : jsstring) : jsstring :=
  match s with
  | [] => []
  | c :: r => if isWhiteSpace c then trimStart r else s
  end.

Definition trimEnd (s : jsstring) : jsstring := rev (trimStart (rev s)).

(** [city.trim()] *)
Definition trim (s : jsstring) : jsstring := trimEnd (trimStart s).

(** ** Errors *)

Inductive Error : Type :=
| EmptyInput                          (* 'Bitte eine Stadt eingeben' *)
| TooShort                            (* 'Stadt muss mindestens 2 Zeichen haben' *)
| TooLong                             (* 'Stadt darf maximal 50 Zeichen haben' *)
| InvalidCharacters                   (* 'Ungültige Zeichen im Stadtnamen' *)
| GeocodingTransportError (status : Z) (* `Geocoding API Fehler: ${status}` *)
| CityNotFound (city : jsstring)      (* `Stadt "${city}" wurde nicht gefunden` *)
| WeatherTransportError (status : Z)  (* `Weather API Fehler: ${status}` *)
| DataUnavailable                     (* 'Keine Wetterdaten verfügbar' *)
| URIError                            (* encodeURIComponent on a lone surrogate *)
| FetchRejected                       (* fetch() rejects: no response at all *)
| BodyRejected                        (* response.json() rejects *)
| TypeError.                          (* property read on null or undefined *)

Inductive Result (A : Type) : Type :=
| Ok (a : A)
| Throw (e : Error).
Arguments Ok {A} a.
Arguments Throw {A} e.

(** ** Validation *)

Module Validation.

(** The character class [[a-zA-ZäöüÄÖÜß\s\-]]. *)
Definition cityChar (c : N) : bool :=
  ((0x61 <=? c) && (c <=? 0x7A))        (* a-z *)
  || ((0x41 <=? c) && (c <=? 0x5A))     (* A-Z *)
  || (c =? 0xE4) || (c =? 0xF6) || (c =? 0xFC)   (* ä ö ü *)
  || (c =? 0xC4) || (c =? 0xD6) || (c =? 0xDC)   (* Ä Ö Ü *)
  || (c =? 0xDF)                        (* ß *)
  || isWhiteSpace c                     (* \s *)
  || (c =? 0x2D).                       (* \- *)

(** [/^[a-zA-ZäöüÄÖÜß\s\-]+$/.test(s)]: one or more characters of the
    class, from the start of [s] to its end. *)
Definition cityPattern_test (s : jsstring) : bool :=
  match s with
  | [] => false
  | _ :: _ => forallb cityChar s
  end.

Definition validateCity (city : jsstring) : Result jsstring :=
  let trimmed := trim city in
  match trimmed with
  | [] => Throw EmptyInput
  | _ :: _ =>
      if (length trimmed <? 2)%nat then Throw TooShort
      else if (50 <? length trimmed)%nat then Throw TooLong
      else if negb (cityPattern_test trimmed) then Throw InvalidCharacters
      else Ok trimmed
  end.

End Validation.

(** ** Values

    The values the page receives from [response.json()] and passes on.  A
    number is an IEEE 754 binary64 value; an object is the list of its own
    properties, the first binding of a name being the property. *)

Inductive value : Type :=
| VUndefined
| VNull
| VBool (b : bool)
| VNum (x : spec_float)
| VStr (s : jsstring)
| VArr (items : list value)
| VObj (props : list (jsstring * value)).

(** ToBoolean *)
Definition truthy (v : value) : bool :=
  match v with
  | VUndefined | VNull => false
  | VBool b => b
  | VNum (S754_zero _) | VNum S754_nan => false
  | VNum _ => true
  | VStr [] => false
  | VStr (_ :: _) => true
  | VArr _ | VObj _ => true
  end.

Fixpoint lookupProp (k : jsstring) (props : list (jsstring * value)) : value :=
  match props with
  | [] => VUndefined
  | (k', v) :: rest => if decide (k = k') then v else lookupProp k rest
  end.

(** [v.k] for the property names the source reads ([results], [current],
    [latitude], ...), none of which is a property of a string, an array, a
    number or a boolean: reading them off a primitive or an array gives
    [undefined], off [null] or [undefined] throws a TypeError. *)
Definition member (v : value) (k : jsstring) : Result value :=
  match v with
  | VUndefined | VNull => Throw TypeError
  | VObj props => Ok (lookupProp k props)
  | VBool _ | VNum _ | VStr _ | VArr _ => Ok VUndefined
  end.

(** [v.length === 0], for a [v] that is neither [null] nor [undefined]. *)
Definition lengthIsZero (v : value) : bool :=
  match v with
  | VArr [] | VStr [] => true
  | VObj props =>
      match lookupProp (units "length") props with
      | VNum (S754_zero _) => true
      | _ => false
      end
  | _ => false
  end.

(** [v[0]] *)
Definition first (v : value) : Result value :=
  match v with
  | VUndefined | VNull => Throw TypeError
  | VArr (x :: _) => Ok x
  | VStr (c :: _) => Ok (VStr [c])
  | VObj props => Ok (lookupProp (units "0") props)
  | _ => Ok VUndefined
  end.

(** ** Configuration *)

Module CONFIG.
Definition CACHE_DURATION : Z := 5 * 60 * 1000.
End CONFIG.

(** ** The host: built-ins, clock and network *)

(** A [fetch] call, by the endpoint and the values interpolated into its
    URL: [GEOCODING_API?name=<city>&count=1&language=de&format=json] and
    [WEATHER_API?latitude=<latitude>&longitude=<longitude>&current=temperature_2m]. *)
Inductive Request : Type :=
| GeocodingRequest (city : jsstring)
| WeatherRequest (latitude longitude : value).

(** A response: its [status] and what [response.json()] resolves to
    ([None] when it rejects). *)
Record Response : Type := mkResponse {
  status : Z;
  body : option value
}.

(** [response.ok] *)
Definition ok (r : Response) : bool :=
  ((200 <=? status r) && (status r <=? 299))%Z.

Inductive FetchOutcome : Type :=
| Rejected
| Resolved (r : Response).

(** [toLowerCase] is [String.prototype.toLowerCase]; [now n] is what the
    [n]-th reading of [Date.now()] shows (counting from 0); [fetch n req]
    is how the [n]-th call of [fetch] ends when it is made for [req]. *)
Record Host : Type := mkHost {
  toLowerCase : jsstring -> jsstring;
  now : nat -> Z;
  fetch : nat -> Request -> FetchOutcome
}.

(** ** The state of the page *)

Record Location : Type := mkLocation {
  latitude : value;
  longitude : value;
  name : value;
  country : value
}.

(** The object [getTemperature] builds, caches and returns:
    [{ city, country, temperature }]. *)
Record Reading : Type := mkReading {
  r_city : value;
  r_country : value;
  r_temperature : value
}.

(** An entry of [Cache.data]: [{ value, timestamp }]. *)
Record Item : Type := mkItem {
  item_value : Reading;
  timestamp : Z
}.

Record Page : Type := mkPage {
  data : gmap jsstring Item;     (* Cache.data *)
  readings : nat;                (* Date.now() readings taken so far *)
  calls : list Request           (* fetch calls made so far, oldest first *)
}.

(** ** Computations *)

Definition M (A : Type) : Type := Page -> Result A * Page.

Definition ret {A} (a : A) : M A := fun p => (Ok a, p).

Definition throw {A} (e : Error) : M A := fun p => (Throw e, p).

Definition lift {A} (r : Result A) : M A := fun p => (r, p).

Definition bind {A B} (m : M A) (k : A -> M B) : M B :=
  fun p =>
    match m p with
    | (Ok a, p') => k a p'
    | (Throw e, p') => (Throw e, p')
    end.

(** [try { m } catch (error) { handler error }] *)
Definition tryCatch {A} (m : M A) (handler : Error -> M A) : M A :=
  fun p =>
    match m p with
    | (Ok a, p') => (Ok a, p')
    | (Throw e, p') => handler e p'
    end.

Notation "x <- m ;; k" := (bind m (fun x => k))
  (at level 100, m at next level, right associativity).

(** [Date.now()] *)
Definition Date_now (h : Host) : M Z :=
  fun p => (Ok (now h (readings p)),
            mkPage (data p) (S (readings p)) (calls p)).

(** [await fetch(url)] *)
Definition await_fetch (h : Host) (req : Request) : M Response :=
  fun p =>
    let p' := mkPage (data p) (readings p) (calls p ++ [req]) in
    match fetch h (length (calls p)) req with
    | Rejected => (Throw FetchRejected, p')
    | Resolved r => (Ok r, p')
    end.

(** [await response.json()] *)
Definition await_json (r : Response) : M value :=
  match body r with
  | Some v => ret v
  | None => throw BodyRejected
  end.

(** ** Cache *)

Module Cache.

Definition set (h : Host) (key : jsstring) (value : Reading) : M unit :=
  t <- Date_now h ;;
  fun p => (Ok tt, mkPage (<[key := mkItem value t]> (data p)) (readings p) (calls p)).

Definition get (h : Host) (key : jsstring) : M (option Reading) :=
  fun p =>
    match data p !! key with
    | None => (Ok None, p)
    | Some item =>
        (t <- Date_now h ;;
         if (t - timestamp item >? CONFIG.CACHE_DURATION)%Z
         then fun p' => (Ok None, mkPage (delete key (data p')) (readings p') (calls p'))
         else ret (Some (item_value item))) p
    end.

Definition clear : M unit :=
  fun p => (Ok tt, mkPage ∅ (readings p) (calls p)).

End Cache.

(** ** API *)

(** [encodeURIComponent] throws a URIError on a string with a lone
    surrogate, and on no other; [wellFormed s] says that [s] has none. *)
Definition isHighSurrogate (c : N) : bool := (0xD800 <=? c) && (c <=? 0xDBFF).
Definition isLowSurrogate (c : N) : bool := (0xDC00 <=? c) && (c <=? 0xDFFF).

Fixpoint wellFormed (s : jsstring) : bool :=
  match s with
  | [] => true
  | c :: r =>
      if isHighSurrogate c then
        match r with
        | d :: r' => isLowSurrogate d && wellFormed r'
        | [] => false
        end
      else if isLowSurrogate c then false
      else wellFormed r
  end.

Definition isUndefined (v : value) : bool :=
  match v with
  | VUndefined => true
  | _ => false
  end.

Module API.

Definition getCoordinates (h : Host) (city : jsstring) : M Location :=
  _ <- lift (if wellFormed city then Ok tt else Throw URIError) ;;
  response <- await_fetch h (GeocodingRequest city) ;;
  if negb (ok response) then throw (GeocodingTransportError (status response))
  else
    data <- await_json response ;;
    results <- lift (member data (units "results")) ;;
    if negb (truthy results) || lengthIsZero results
    then throw (CityNotFound city)
    else
      result0 <- lift (first results) ;;
      latitude <- lift (member result0 (units "latitude")) ;;
      longitude <- lift (member result0 (units "longitude")) ;;
      name <- lift (member result0 (units "name")) ;;
      country <- lift (member result0 (units "country")) ;;
      ret (mkLocation latitude longitude name
             (if truthy country then country else VStr [])).

Definition getWeather (h : Host) (latitude longitude : value) : M value :=
  response <- await_fetch h (WeatherRequest latitude longitude) ;;
  if negb (ok response) then throw (WeatherTransportError (status response))
  else
    data <- await_json response ;;
    current <- lift (member data (units "current")) ;;
    if negb (truthy current) then throw DataUnavailable
    else
      temperature_2m <- lift (member current (units "temperature_2m")) ;;
      if isUndefined temperature_2m then throw DataUnavailable
      else ret temperature_2m.

(** [cached] is [null] or an object that [getTemperature] stored, and an
    object is truthy: [if (cached)] asks whether there is one. *)
Definition getTemperature (h : Host) (city : jsstring) : M Reading :=
  cached <- Cache.get h (toLowerCase h city) ;;
  match cached with
  | Some reading => ret reading
  | None =>
      tryCatch
        (location <- getCoordinates h city ;;
         temperature <- getWeather h (latitude location) (longitude location) ;;
         let result := mkReading (name location) (country location) temperature in
         _ <- Cache.set h (toLowerCase h city) result ;;
         ret result)
        (fun error => throw error)
  end.

End API.

(** ** The document

    The elements of [DOM] and what [UI] and the event handlers do with
    them.  Of an element only what the code reads or writes is kept: the
    value of the input, whether the button is disabled, whether an element
    has the class [hidden], and what an element shows.  What an element
    shows is kept as the statement that put it there, with the values that
    went into it, and not as the string those make. *)

Inductive Content : Type :=
| Static (text : jsstring)
    (* whatever index.html put there *)
| Blank
    (* textContent = '' *)
| Warning (e : Error)
    (* textContent = `⚠️ ${message}`, for the message of [e] *)
| ResultMarkup (city temperature : value) (countryFlag : option value).
    (* innerHTML = the markup of showResult, with escapeHtml(city), then
       ` (${country})` when there is a country flag, and ${temperature} *)

Module DOM.

(** [None] is the [null] that [document.getElementById] returns when the
    page has no such element. *)
Record Elements : Type := mk {
  input : option jsstring;            (* DOM.input: its value *)
  button : option bool;               (* DOM.button: is it disabled *)
  result : option (bool * Content);   (* DOM.result: has it class hidden; content *)
  error : option (bool * Content);    (* DOM.error: has it class hidden; content *)
  loading : option bool               (* DOM.loading: has it class hidden *)
}.

End DOM.

(** The page with its document; [prevented] counts the calls of
    [event.preventDefault()]. *)
Record Browser : Type := mkBrowser {
  page : Page;
  dom : DOM.Elements;
  prevented : nat
}.

Definition B (A : Type) : Type := Browser -> Result A * Browser.

Definition retB {A} (a : A) : B A := fun b => (Ok a, b).

Definition liftB {A} (r : Result A) : B A := fun b => (r, b).

Definition bindB {A C} (m : B A) (k : A -> B C) : B C :=
  fun b =>
    match m b with
    | (Ok a, b') => k a b'
    | (Throw e, b') => (Throw e, b')
    end.

Definition tryCatchB {A} (m : B A) (handler : Error -> B A) : B A :=
  fun b =>
    match m b with
    | (Ok a, b') => (Ok a, b')
    | (Throw e, b') => handler e b'
    end.

Notation "x <~ m ;; k" := (bindB m (fun x => k))
  (at level 100, m at next level, right associativity).

(** A computation on the page, run in the browser. *)
Definition onPage {A} (m : M A) : B A :=
  fun b =>
    let (r, p') := m (page b) in
    (r, mkBrowser p' (dom b) (prevented b)).

Definition withDom (b : Browser) (d : DOM.Elements) : Browser :=
  mkBrowser (page b) d (prevented b).

(** [DOM.input.value] *)
Definition input_value : B jsstring :=
  fun b =>
    match DOM.input (dom b) with
    | None => (Throw TypeError, b)
    | Some v => (Ok v, b)
    end.

(** [DOM.loading?.classList.add('hidden')] for [true],
    [DOM.loading?.classList.remove('hidden')] for [false] *)
Definition loading_hidden (hidden : bool) : B unit :=
  fun b =>
    let d := dom b in
    (Ok tt,
     withDom b (DOM.mk (DOM.input d) (DOM.button d) (DOM.result d) (DOM.error d)
                       (match DOM.loading d with
                        | None => None
                        | Some _ => Some hidden
                        end))).

(** [DOM.error?.classList.add('hidden')] *)
Definition error_hide : B unit :=
  fun b =>
    let d := dom b in
    (Ok tt,
     withDom b (DOM.mk (DOM.input d) (DOM.button d) (DOM.result d)
                       (match DOM.error d with
                        | None => None
                        | Some (_, content) => Some (true, content)
                        end)
                       (DOM.loading d))).

(** [DOM.result.textContent = ...] and [DOM.result.innerHTML = ...] *)
Definition result_content (content : Content) : B unit :=
  fun b =>
    let d := dom b in
    match DOM.result d with
    | None => (Throw TypeError, b)
    | Some (hidden, _) =>
        (Ok tt,
         withDom b (DOM.mk (DOM.input d) (DOM.button d) (Some (hidden, content))
                           (DOM.error d) (DOM.loading d)))
    end.

(** [DOM.result.classList.remove('hidden')] *)
Definition result_show : B unit :=
  fun b =>
    let d := dom b in
    match DOM.result d with
    | None => (Throw TypeError, b)
    | Some (_, content) =>
        (Ok tt,
         withDom b (DOM.mk (DOM.input d) (DOM.button d) (Some (false, content))
                           (DOM.error d) (DOM.loading d)))
    end.

(** [DOM.button.disabled = ...] *)
Definition button_disabled (disabled : bool) : B unit :=
  fun b =>
    let d := dom b in
    match DOM.button d with
    | None => (Throw TypeError, b)
    | Some _ =>
        (Ok tt,
         withDom b (DOM.mk (DOM.input d) (Some disabled) (DOM.result d)
                           (DOM.error d) (DOM.loading d)))
    end.

(** [event.preventDefault()] *)
Definition preventDefault : B unit :=
  fun b => (Ok tt, mkBrowser (page b) (dom b) (S (prevented b))).

Module UI.

Definition showLoading : B unit :=
  _ <~ loading_hidden false ;;
  _ <~ result_content Blank ;;
  _ <~ error_hide ;;
  button_disabled true.

Definition hideLoading : B unit :=
  _ <~ loading_hidden true ;;
  button_disabled false.

(** The parameter [country] has the default [''], which stands in for
    [undefined]. *)
Definition showResult (city temperature country : value) : B unit :=
  let country := if isUndefined country then VStr [] else country in
  _ <~ hideLoading ;;
  let countryFlag := if truthy country then Some country else None in
  _ <~ result_content (ResultMarkup city temperature countryFlag) ;;
  result_show.

(** [UI.showError(error.message)], by the error whose message is shown. *)
Definition showError (e : Error) : B unit :=
  _ <~ hideLoading ;;
  _ <~ result_content Blank ;;
  fun b =>
    let d := dom b in
    match DOM.error d with
    | Some _ =>
        (Ok tt,
         withDom b (DOM.mk (DOM.input d) (DOM.button d) (DOM.result d)
                           (Some (false, Warning e)) (DOM.loading d)))
    | None => result_content (Warning e) b
    end.

End UI.

(** ** Event handlers *)

(** [handleRequest(event)]; [event] says whether an event was passed. *)
Definition handleRequest (h : Host) (event : bool) : B unit :=
  _ <~ (if event then preventDefault else retB tt) ;;
  tryCatchB
    (raw <~ input_value ;;
     city <~ liftB (Validation.validateCity raw) ;;
     _ <~ UI.showLoading ;;
     data <~ onPage (API.getTemperature h city) ;;
     UI.showResult (r_city data) (r_temperature data) (r_country data))
    (fun error => UI.showError error).

(** The events [initApp] listens to, but for the [input] event, whose
    handler [handleInputChange] does nothing but set a timer that writes
    to the console. *)
Inductive PageEvent : Type :=
| Submit                   (* submit on DOM.form *)
| Click                    (* click on DOM.button *)
| KeyDown (key : jsstring) (* keydown on DOM.input, with event.key *)
| BeforeUnload.            (* beforeunload on window *)

(** What the listener that [initApp] registered does when the event
    comes. *)
Definition dispatch (h : Host) (ev : PageEvent) : B unit :=
  match ev with
  | Submit | Click => handleRequest h true
  | KeyDown key =>
      if decide (key = units "Enter")
      then (_ <~ preventDefault ;; handleRequest h false)
      else retB tt
  | BeforeUnload => onPage Cache.clear
  end.

(** ** A host and a page to run the code on *)

(** [String.prototype.toLowerCase] on strings whose code units are all
    below 0x100 (Basic Latin and Latin-1 Supplement), where it works unit
    by unit; other code units are left as they are. *)
Definition isLatin1Upper (c : N) : bool :=
  ((0x41 <=? c) && (c <=? 0x5A))
  || ((0xC0 <=? c) && (c <=? 0xDE) && negb (c =? 0xD7)).

Definition latin1LowerUnit (c : N) : N :=
  if isLatin1Upper c then c + 0x20 else c.

Definition latin1ToLowerCase (s : jsstring) : jsstring := map latin1LowerUnit s.

Definition num_9_3 : value := VNum (S754_finite false 5235434566818202 (-49)).
Definition num_52_52 : value := VNum (S754_finite false 7391532888421827 (-47)).
Definition num_13_405 : value := VNum (S754_finite false 7546344125612687 (-49)).

(** [{"results":[{"latitude":52.52,"longitude":13.405,"name":"Berlin","country":"Germany"}]}] *)
Definition berlinGeocoding : value :=
  VObj [(units "results",
         VArr [VObj [(units "latitude", num_52_52);
                     (units "longitude", num_13_405);
                     (units "name", VStr (units "Berlin"));
                     (units "country", VStr (units "Germany"))]])].

(** [{"current":{"temperature_2m":9.3}}] *)
Definition berlinWeather : value :=
  VObj [(units "current", VObj [(units "temperature_2m", num_9_3)])].

(** A geocoding service that knows Berlin and nothing else, and a weather
    service that reports 9.3 degrees everywhere. *)
Definition berlinFetch (n : nat) (req : Request) : FetchOutcome :=
  match req with
  | GeocodingRequest city =>
      if decide (latin1ToLowerCase city = units "berlin")
      then Resolved (mkResponse 200 (Some berlinGeocoding))
      else Resolved (mkResponse 200 (Some (VObj [])))
  | WeatherRequest _ _ => Resolved (mkResponse 200 (Some berlinWeather))
  end.

(** On this host the clock advances one minute per reading. *)
Definition berlinHost : Host :=
  mkHost latin1ToLowerCase (fun n => 1000000 + 60000 * Z.of_nat n)%Z berlinFetch.

Definition emptyPage : Page := mkPage ∅ 0 [].

Definition berlinReading : Reading :=
  mkReading (VStr (units "Berlin")) (VStr (units "Germany")) num_9_3.

(** The page after [getTemperature("Berlin")] on the empty page. *)
Definition berlinPage : Page :=
  mkPage {[ units "berlin" := mkItem berlinReading 1000000 ]} 1
         [GeocodingRequest (units "Berlin"); WeatherRequest num_52_52 num_13_405].

(** A host on which the first lookup of Berlin succeeds; after that the
    geocoding service answers 503.  The clock advances ten minutes per
    reading. *)
Definition outageHost : Host :=
  mkHost latin1ToLowerCase (fun n => 1000000 + 600000 * Z.of_nat n)%Z
    (fun n req =>
       if (n <? 2)%nat then berlinFetch n req
       else Resolved (mkResponse 503 None)).

(** The Berlin services, with a clock that advances ten minutes per
    reading. *)
Definition slowHost : Host :=
  mkHost latin1ToLowerCase (fun n => 1000000 + 600000 * Z.of_nat n)%Z berlinFetch.

(** A host on which every request is answered with status 200 and the
    body [v]. *)
Definition answering (v : value) : Host :=
  mkHost latin1ToLowerCase (fun _ => 0%Z)
    (fun _ _ => Resolved (mkResponse 200 (Some v))).

(** [{"results":[{"name":"Berlin"},null]}] *)
Definition nameOnlyGeocoding : value :=
  VObj [(units "results", VArr [VObj [(units "name", VStr (units "Berlin"))]; VNull])].


(** A document with all five elements, nothing shown yet, and [raw] typed
    into the input. *)
Definition freshDom (raw : jsstring) : DOM.Elements :=
  DOM.mk (Some raw) (Some false) (Some (true, Static [])) (Some (true, Static []))
         (Some true).

(** ** Notions used in the statements *)

Definition allWhiteSpace (s : jsstring) : Prop :=
  Forall (fun c => isWhiteSpace c = true) s.

(** An entry is fresh on a page when the next reading of the clock is at
    most [CACHE_DURATION] after its timestamp. *)
Definition fresh (h : Host) (p : Page) (item : Item) : Prop :=
  (now h (readings p) - timestamp item <= CONFIG.CACHE_DURATION)%Z.

Definition expired (h : Host) (p : Page) (item : Item) : Prop :=
  (now h (readings p) - timestamp item > CONFIG.CACHE_DURATION)%Z.

(** The page after one more reading of the clock. *)
Definition tick (p : Page) : Page := mkPage (data p) (S (readings p)) (calls p).

(** The four ways a call of [getTemperature] can end. *)
Inductive Outcome (h : Host) (city : jsstring) (p : Page) :
    Result Reading -> Page -> Prop :=
| Hit (item : Item) :
    data p !! toLowerCase h city = Some item ->
    fresh h p item ->
    Outcome h city p (Ok (item_value item)) (tick p)
| GeocodingFailed (p0 : Page) (e : Error) (p1 : Page) :
    Cache.get h (toLowerCase h city) p = (Ok None, p0) ->
    API.getCoordinates h city p0 = (Throw e, p1) ->
    Outcome h city p (Throw e) p1
| WeatherFailed (p0 : Page) (location : Location) (p1 : Page) (e : Error) (p2 : Page) :
    Cache.get h (toLowerCase h city) p = (Ok None, p0) ->
    API.getCoordinates h city p0 = (Ok location, p1) ->
    API.getWeather h (latitude location) (longitude location) p1 = (Throw e, p2) ->
    Outcome h city p (Throw e) p2
| Stored (p0 : Page) (location : Location) (p1 : Page) (temperature : value) (p2 : Page) :
    Cache.get h (toLowerCase h city) p = (Ok None, p0) ->
    API.getCoordinates h city p0 = (Ok location, p1) ->
    API.getWeather h (latitude location) (longitude location) p1 = (Ok temperature, p2) ->
    let result := mkReading (name location) (country location) temperature in
    Outcome h city p (Ok result)
      (mkPage (<[toLowerCase h city := mkItem result (now h (readings p2))]> (data p2))
              (S (readings p2)) (calls p2)).

Definition keysLowercase (h : Host) (p : Page) : Prop :=
  forall k, is_Some (data p !! k) -> toLowerCase h k = k.

(** The pages the program can be in: it starts with an empty cache, and
    the cache is changed by calls of [getTemperature] and by [Cache.clear]
    only. *)
Inductive reachable (h : Host) : Page -> Prop :=
| reachable_start : reachable h emptyPage
| reachable_getTemperature (city : jsstring) (p : Page) :
    reachable h p -> reachable h (snd (API.getTemperature h city p))
| reachable_clear (p : Page) :
    reachable h p -> reachable h (snd (Cache.clear p)).

(** The user types [s] into the input. *)
Definition typing (s : jsstring) (b : Browser) : Browser :=
  let d := dom b in
  withDom b (DOM.mk (match DOM.input d with
                     | None => None
                     | Some _ => Some s
                     end)
                    (DOM.button d) (DOM.result d) (DOM.error d) (DOM.loading d)).

(** The states of the browser in a session: it starts with some document
    and an empty cache; the user types, and events come, each handled to
    its end before the next. *)
Inductive visited (h : Host) : Browser -> Prop :=
| visited_start (d : DOM.Elements) : visited h (mkBrowser emptyPage d 0)
| visited_typing (s : jsstring) (b : Browser) :
    visited h b -> visited h (typing s b)
| visited_event (ev : PageEvent) (b : Browser) :
    visited h b -> visited h (snd (dispatch h ev b)).

(** Every key of the cache is the lowercase form of a valid city. *)
Definition validKeys (h : Host) (p : Page) : Prop :=
  forall k, is_Some (data p !! k) ->
            exists city, Validation.validateCity city = Ok city
                         /\ k = toLowerCase h city.

(** A log of requests made of rounds, each the geocoding request for a
    valid city, alone or followed by a weather request. *)
Inductive rounds : list Request -> Prop :=
| rounds_none : rounds []
| rounds_geocoding (l : list Request) (city : jsstring) :
    rounds l -> Validation.validateCity city = Ok city ->
    rounds (l ++ [GeocodingRequest city])
| rounds_both (l : list Request) (city : jsstring) (lat lon : value) :
    rounds l -> Validation.validateCity city = Ok city ->
    rounds (l ++ [GeocodingRequest city; WeatherRequest lat lon]).

(** ** Proof steps *)

Local Ltac settle :=
  repeat split; intros;
  try discriminate; try congruence; try tauto; try lia.

(** Case analysis on a scrutinee that contains no other case analysis. *)
Local Ltac break_match :=
  match goal with
  | |- context [match ?x with _ => _ end] =>
      lazymatch x with
      | context [match _ with _ => _ end] => fail
      | _ => destruct x eqn:?
      end
  end.

Local Ltac run_out H :=
  repeat (break_match; simpl);
  intros H; injection H as <- <-; simpl.

(** * Properties *)

(** ** Runs of the code *)

Example validateCity_Berlin :
  Validation.validateCity (units "  Berlin  ") = Ok (units "Berlin").
Proof. reflexivity. Qed.

Example getTemperature_Berlin :
  fst (API.getTemperature berlinHost (units "Berlin") emptyPage) = Ok berlinReading.
Proof. vm_compute. reflexivity. Qed.

Example CACHE_DURATION_ms : CONFIG.CACHE_DURATION = 300000%Z.
Proof. reflexivity. Qed.

(** ** Trimming *)

Lemma trimStart_split (s : jsstring) :
  exists pre, s = pre ++ trimStart s /\ allWhiteSpace pre.
Proof.
  induction s as [|c r IH]; simpl.
  - exists []. split; [reflexivity | constructor].
  - destruct (isWhiteSpace c) eqn:Hc.
    + destruct IH as [pre [Heq Hpre]].
      exists (c :: pre). split.
      * simpl. f_equal. exact Heq.
      * constructor; assumption.
    + exists []. split; [reflexivity | constructor].
Qed.

Lemma trimStart_head (s : jsstring) (c : N) (r : jsstring) :
  trimStart s = c :: r -> isWhiteSpace c = false.
Proof.
  induction s as [|d t IH]; simpl; [discriminate |].
  destruct (isWhiteSpace d) eqn:Hd; [exact IH |].
  intros H. injection H as -> _. exact Hd.
Qed.

Lemma trimEnd_split (s : jsstring) :
  exists post, s = trimEnd s ++ post /\ allWhiteSpace post.
Proof.
  unfold trimEnd.
  destruct (trimStart_split (rev s)) as [pre [Heq Hpre]].
  exists (rev pre). split.
  - rewrite <- rev_app_distr, <- Heq, rev_involutive. reflexivity.
  - apply Forall_rev. exact Hpre.
Qed.

(** [trim s] is [s] without a prefix and a suffix of white space. *)
Lemma trim_split (s : jsstring) :
  exists pre post,
    s = pre ++ trim s ++ post /\ allWhiteSpace pre /\ allWhiteSpace post.
Proof.
  destruct (trimStart_split s) as [pre [Hs Hpre]].
  destruct (trimEnd_split (trimStart s)) as [post [Ht Hpost]].
  exists pre, post. unfold trim. rewrite <- Ht. auto.
Qed.

Lemma trim_head (s : jsstring) (c : N) (r : jsstring) :
  trim s = c :: r -> isWhiteSpace c = false.
Proof.
  intros H. destruct (trimEnd_split (trimStart s)) as [post [Ht _]].
  fold (trim s) in Ht. rewrite H in Ht. simpl in Ht.
  exact (trimStart_head s c (r ++ post) Ht).
Qed.

Lemma trim_last (s : jsstring) (c : N) (r : jsstring) :
  trim s = r ++ [c] -> isWhiteSpace c = false.
Proof.
  unfold trim, trimEnd. intros H.
  apply (f_equal (@rev N)) in H.
  rewrite rev_involutive, rev_app_distr in H. simpl in H.
  exact (trimStart_head _ _ _ H).
Qed.

(** ** Validation *)

Section ValidationFacts.

Import Validation.

Lemma cityPattern_test_true (s : jsstring) :
  cityPattern_test s = true <-> s <> [] /\ forall c, In c s -> cityChar c = true.
Proof.
  destruct s as [|c r].
  - simpl. split; [discriminate | intros [H _]; congruence].
  - unfold cityPattern_test. rewrite forallb_forall.
    split; [intros H; split; [discriminate | exact H] | intros [_ H]; exact H].
Qed.

Lemma cityPattern_test_false (s : jsstring) :
  s <> [] ->
  (cityPattern_test s = false <-> exists c, In c s /\ cityChar c = false).
Proof.
  intros Hne. destruct s as [|c r]; [congruence |].
  unfold cityPattern_test. split.
  - intros H.
    destruct (existsb (fun x => negb (cityChar x)) (c :: r)) eqn:He.
    + apply existsb_exists in He. destruct He as [x [Hin Hx]].
      exists x. split; [exact Hin |]. destruct (cityChar x); [discriminate | reflexivity].
    + assert (forallb cityChar (c :: r) = true); [| congruence].
      apply forallb_forall. intros x Hin.
      destruct (cityChar x) eqn:Hx; [reflexivity |].
      assert (existsb (fun x => negb (cityChar x)) (c :: r) = true) as Hex.
      { apply existsb_exists. exists x. rewrite Hx. auto. }
      congruence.
  - intros [x [Hin Hx]]. apply not_true_iff_false. intros H.
    rewrite forallb_forall in H. specialize (H x Hin). congruence.
Qed.

(** The four checks of [validateCity], one equation per outcome. *)
Lemma validateCity_cases (raw : jsstring) :
  let t := trim raw in
  validateCity raw =
    if decide (t = []) then Throw EmptyInput
    else if (length t <? 2)%nat then Throw TooShort
    else if (50 <? length t)%nat then Throw TooLong
    else if cityPattern_test t then Ok t
    else Throw InvalidCharacters.
Proof.
  unfold validateCity. cbv zeta.
  destruct (trim raw) as [|c r] eqn:Ht; [reflexivity |].
  destruct (decide (c :: r = [])) as [Hnil | _]; [discriminate |].
  destruct (length (c :: r) <? 2)%nat; [reflexivity |].
  destruct (50 <? length (c :: r))%nat; [reflexivity |].
  destruct (cityPattern_test (c :: r)); reflexivity.
Qed.

End ValidationFacts.

(** A letter outside the class of the pattern is refused: ["José"]. *)
Example validateCity_Jose :
  Validation.validateCity [0x4A; 0x6F; 0x73; 0xE9] = Throw InvalidCharacters.
Proof. reflexivity. Qed.

Lemma cityChar_not_surrogate (c : N) :
  Validation.cityChar c = true ->
  isHighSurrogate c = false /\ isLowSurrogate c = false.
Proof.
  unfold Validation.cityChar, isWhiteSpace, isHighSurrogate, isLowSurrogate.
  intros H.
  repeat rewrite ?orb_true_iff, ?andb_true_iff, ?N.leb_le, ?N.eqb_eq in H.
  split; apply not_true_iff_false; rewrite andb_true_iff, !N.leb_le; lia.
Qed.

Lemma cityChars_wellFormed (s : jsstring) :
  (forall c, In c s -> Validation.cityChar c = true) -> wellFormed s = true.
Proof.
  induction s as [|c r IH]; [reflexivity |].
  intros Hall. simpl.
  destruct (cityChar_not_surrogate c (Hall c (or_introl eq_refl))) as [-> ->].
  apply IH. intros d Hd. apply Hall. right. exact Hd.
Qed.

(** A validated city can always be put in the URL: the [encodeURIComponent]
    of [getCoordinates] does not throw on it. *)
Lemma validateCity_wellFormed (raw q : jsstring) :
  Validation.validateCity raw = Ok q -> wellFormed q = true.
Proof.
  rewrite validateCity_cases. cbv zeta.
  destruct (decide (trim raw = [])); [discriminate |].
  destruct (length (trim raw) <? 2)%nat; [discriminate |].
  destruct (50 <? length (trim raw))%nat; [discriminate |].
  destruct (Validation.cityPattern_test (trim raw)) eqn:Ht; [| discriminate].
  intros H. injection H as <-.
  apply cityChars_wellFormed. apply cityPattern_test_true. exact Ht.
Qed.

(** C4.  [validateCity] fails with [EmptyInput] exactly when the trimmed
    input is empty, with [TooShort] exactly when it is not empty and shorter
    than 2, and with [TooLong] exactly when it is longer than 50: the three
    checks are made in this order, so the empty string (of length 0 < 2) is
    reported as [EmptyInput] and not as [TooShort]. *)
Theorem validateCity_length_errors (raw : jsstring) :
  (Validation.validateCity raw = Throw EmptyInput <-> trim raw = [])
  /\ (Validation.validateCity raw = Throw TooShort
      <-> trim raw <> [] /\ (length (trim raw) < 2)%nat)
  /\ (Validation.validateCity raw = Throw TooLong
      <-> (length (trim raw) > 50)%nat).
Proof.
  rewrite validateCity_cases. cbv zeta.
  destruct (decide (trim raw = [])) as [He | Hne].
  - rewrite He. simpl. settle.
  - destruct (length (trim raw) <? 2)%nat eqn:H2.
    + apply Nat.ltb_lt in H2. settle.
    + apply Nat.ltb_ge in H2.
      destruct (50 <? length (trim raw))%nat eqn:H50.
      * apply Nat.ltb_lt in H50. settle.
      * apply Nat.ltb_ge in H50.
        destruct (Validation.cityPattern_test (trim raw)); settle.
Qed.

(** C5.  When the trimmed input has between 2 and 50 code units,
    [validateCity] fails with [InvalidCharacters] exactly when some code
    unit of the trimmed input is outside the class of the pattern (the
    letters a-z and A-Z, the letters ä ö ü Ä Ö Ü ß, white space and the
    hyphen), and returns the trimmed input exactly when all of them are
    in it. *)
Theorem validateCity_characters (raw : jsstring)
    (Hlen : (2 <= length (trim raw) <= 50)%nat) :
  (Validation.validateCity raw = Throw InvalidCharacters
   <-> exists c, In c (trim raw) /\ Validation.cityChar c = false)
  /\ (Validation.validateCity raw = Ok (trim raw)
      <-> forall c, In c (trim raw) -> Validation.cityChar c = true).
Proof.
  rewrite validateCity_cases. cbv zeta.
  assert (trim raw <> []) as Hne.
  { intros He. rewrite He in Hlen. simpl in Hlen. lia. }
  destruct (decide (trim raw = [])) as [He | _]; [contradiction |].
  replace (length (trim raw) <? 2)%nat with false
    by (symmetry; apply Nat.ltb_ge; lia).
  replace (50 <? length (trim raw))%nat with false
    by (symmetry; apply Nat.ltb_ge; lia).
  destruct (Validation.cityPattern_test (trim raw)) eqn:Ht.
  - apply cityPattern_test_true in Ht. destruct Ht as [_ Hall].
    split; split; try discriminate; auto.
    intros [c [Hin Hc]]. rewrite (Hall c Hin) in Hc. discriminate.
  - pose proof (proj1 (cityPattern_test_false _ Hne) Ht) as Hex.
    split; split; try discriminate; auto.
    intros Hall. destruct Hex as [c [Hin Hc]].
    rewrite (Hall c Hin) in Hc. discriminate.
Qed.

Lemma validateCity_characters_witness :
  (2 <= length (trim (units "  Berlin  ")) <= 50)%nat
  /\ (Validation.validateCity (units "  Berlin  ") = Ok (trim (units "  Berlin  "))
      <-> forall c, In c (trim (units "  Berlin  ")) -> Validation.cityChar c = true).
Proof.
  split.
  - vm_compute. lia.
  - apply (validateCity_characters (units "  Berlin  ")). vm_compute. lia.
Defined.

(** C6.  When [validateCity] succeeds, what it returns is the input with
    its leading and trailing white space removed and nothing else changed:
    the input is a run of white space, the returned string, a run of white
    space, and the returned string neither starts nor ends with white
    space.  [validateCity("  Berlin  ")] returns ["Berlin"].  The function
    depends on its argument alone: it reads and changes nothing of the
    page. *)
Theorem validateCity_returns_trimmed (raw q : jsstring)
    (Hok : Validation.validateCity raw = Ok q) :
  q = trim raw
  /\ (exists pre post,
        raw = pre ++ q ++ post /\ allWhiteSpace pre /\ allWhiteSpace post)
  /\ (forall c r, q = c :: r -> isWhiteSpace c = false)
  /\ (forall c r, q = r ++ [c] -> isWhiteSpace c = false)
  /\ Validation.validateCity (units "  Berlin  ") = Ok (units "Berlin").
Proof.
  assert (q = trim raw) as ->.
  { rewrite validateCity_cases in Hok. cbv zeta in Hok.
    repeat match type of Hok with
           | (if ?b then _ else _) = _ => destruct b; try discriminate
           end.
    congruence. }
  split; [reflexivity |].
  split; [apply trim_split |].
  split; [intros c r; apply trim_head |].
  split; [intros c r; apply trim_last | reflexivity].
Qed.

Lemma validateCity_returns_trimmed_witness :
  Validation.validateCity (units "  Berlin  ") = Ok (units "Berlin")
  /\ units "Berlin" = trim (units "  Berlin  ").
Proof.
  split.
  - reflexivity.
  - apply (validateCity_returns_trimmed (units "  Berlin  ") (units "Berlin")).
    reflexivity.
Defined.

(** C10.  The white space the pattern allows inside a name is all of [\s],
    not the space character only: ["a\tb"] and ["a\nb"] are valid, and are
    returned with the tab or the line feed in them. *)
Theorem validateCity_interior_whitespace :
  Validation.validateCity [0x61; 0x09; 0x62] = Ok [0x61; 0x09; 0x62]
  /\ Validation.validateCity [0x61; 0x0A; 0x62] = Ok [0x61; 0x0A; 0x62]
  /\ units "a" ++ [0x09] ++ units "b" = [0x61; 0x09; 0x62].
Proof. repeat split. Qed.

(** ** Cache *)

(** [Cache.get], outcome by outcome. *)
Lemma Cache_get_cases (h : Host) (key : jsstring) (p : Page) :
  Cache.get h key p =
    match data p !! key with
    | None => (Ok None, p)
    | Some item =>
        if (now h (readings p) - timestamp item >? CONFIG.CACHE_DURATION)%Z
        then (Ok None, mkPage (delete key (data p)) (S (readings p)) (calls p))
        else (Ok (Some (item_value item)),
              mkPage (data p) (S (readings p)) (calls p))
    end.
Proof.
  unfold Cache.get. destruct (data p !! key) as [item |]; [| reflexivity].
  unfold bind, Date_now, ret. simpl.
  destruct (now h (readings p) - timestamp item >? CONFIG.CACHE_DURATION)%Z;
    reflexivity.
Qed.

Lemma Cache_set_cases (h : Host) (key : jsstring) (v : Reading) (p : Page) :
  Cache.set h key v p =
    (Ok tt, mkPage (<[key := mkItem v (now h (readings p))]> (data p))
                   (S (readings p)) (calls p)).
Proof. reflexivity. Qed.

(** [Cache.get] never throws, and makes no [fetch] call. *)
Lemma Cache_get_total (h : Host) (key : jsstring) (p : Page) :
  exists cached, fst (Cache.get h key p) = Ok cached
                 /\ calls (snd (Cache.get h key p)) = calls p.
Proof.
  rewrite Cache_get_cases. destruct (data p !! key) as [item |].
  - destruct (now h (readings p) - timestamp item >? CONFIG.CACHE_DURATION)%Z;
      eexists; split; reflexivity.
  - eexists; split; reflexivity.
Qed.

(** ** The two requests *)

Lemma getCoordinates_frame (h : Host) (city : jsstring) (p : Page)
    (res : Result Location) (p' : Page) :
  API.getCoordinates h city p = (res, p') ->
  data p' = data p /\ readings p' = readings p
  /\ (wellFormed city = false /\ res = Throw URIError /\ calls p' = calls p
      \/ wellFormed city = true /\ calls p' = calls p ++ [GeocodingRequest city]).
Proof.
  unfold API.getCoordinates, bind, lift, await_fetch, await_json, throw, ret.
  simpl. run_out H; auto 6.
Qed.

Lemma getWeather_frame (h : Host) (lat lon : value) (p : Page)
    (res : Result value) (p' : Page) :
  API.getWeather h lat lon p = (res, p') ->
  data p' = data p /\ readings p' = readings p
  /\ calls p' = calls p ++ [WeatherRequest lat lon].
Proof.
  unfold API.getWeather, bind, lift, await_fetch, await_json, throw, ret.
  simpl. run_out H; auto.
Qed.

(** ** getTemperature, outcome by outcome *)

Lemma getTemperature_cases (h : Host) (city : jsstring) (p : Page) :
  let key := toLowerCase h city in
  API.getTemperature h city p =
    match Cache.get h key p with
    | (Throw e, p0) => (Throw e, p0)
    | (Ok (Some reading), p0) => (Ok reading, p0)
    | (Ok None, p0) =>
        match API.getCoordinates h city p0 with
        | (Throw e, p1) => (Throw e, p1)
        | (Ok location, p1) =>
            match API.getWeather h (latitude location) (longitude location) p1 with
            | (Throw e, p2) => (Throw e, p2)
            | (Ok temperature, p2) =>
                let result := mkReading (name location) (country location) temperature in
                (Ok result,
                 mkPage (<[key := mkItem result (now h (readings p2))]> (data p2))
                        (S (readings p2)) (calls p2))
            end
        end
    end.
Proof.
  cbv zeta. unfold API.getTemperature, bind at 1.
  destruct (Cache.get h (toLowerCase h city) p) as [[[reading |] | e] p0];
    try reflexivity.
  unfold tryCatch, bind.
  destruct (API.getCoordinates h city p0) as [[location | e] p1]; [| reflexivity].
  destruct (API.getWeather h (latitude location) (longitude location) p1)
    as [[temperature | e] p2]; reflexivity.
Qed.

Lemma Cache_get_hit (h : Host) (key : jsstring) (p : Page) (item : Item) :
  data p !! key = Some item -> fresh h p item ->
  Cache.get h key p = (Ok (Some (item_value item)), tick p).
Proof.
  unfold fresh. intros Hl Hf. rewrite Cache_get_cases, Hl.
  destruct (Z.gtb_spec (now h (readings p) - timestamp item) CONFIG.CACHE_DURATION)
    as [Hlt | Hle]; [lia | reflexivity].
Qed.

Lemma Cache_get_Some (h : Host) (key : jsstring) (p : Page) (v : Reading) (p0 : Page) :
  Cache.get h key p = (Ok (Some v), p0) ->
  exists item, data p !! key = Some item /\ fresh h p item
               /\ item_value item = v /\ p0 = tick p.
Proof.
  rewrite Cache_get_cases. destruct (data p !! key) as [item |]; [| discriminate].
  unfold fresh.
  destruct (Z.gtb_spec (now h (readings p) - timestamp item) CONFIG.CACHE_DURATION)
    as [Hlt | Hle]; [discriminate |].
  intros H. injection H as <- <-. exists item. auto.
Qed.

Lemma Cache_get_None (h : Host) (key : jsstring) (p p0 : Page) :
  Cache.get h key p = (Ok None, p0) ->
  data p0 = delete key (data p) /\ calls p0 = calls p
  /\ (forall item, data p !! key = Some item -> expired h p item)
  /\ (data p !! key = None -> p0 = p).
Proof.
  rewrite Cache_get_cases. destruct (data p !! key) as [item |] eqn:Hl.
  - unfold expired.
    destruct (Z.gtb_spec (now h (readings p) - timestamp item) CONFIG.CACHE_DURATION)
      as [Hlt | Hle]; [| discriminate].
    intros H. injection H as <-. simpl.
    split; [reflexivity |]. split; [reflexivity |]. split; [| discriminate].
    intros item' Heq. injection Heq as <-. lia.
  - intros H. injection H as <-.
    split; [symmetry; apply delete_id; exact Hl |].
    split; [reflexivity |]. split; [discriminate | reflexivity].
Qed.

Lemma getTemperature_Outcome (h : Host) (city : jsstring) (p : Page)
    (res : Result Reading) (p' : Page) :
  API.getTemperature h city p = (res, p') -> Outcome h city p res p'.
Proof.
  rewrite getTemperature_cases. cbv zeta.
  destruct (Cache.get h (toLowerCase h city) p) as [[[reading |] | e] p0] eqn:Hget.
  - apply Cache_get_Some in Hget. destruct Hget as [item [Hl [Hf [<- ->]]]].
    intros H. injection H as <- <-. apply Hit; assumption.
  - destruct (API.getCoordinates h city p0) as [[location | e] p1] eqn:Hgeo.
    + destruct (API.getWeather h (latitude location) (longitude location) p1)
        as [[temperature | e] p2] eqn:Hw;
        intros H; injection H as <- <-.
      * eapply Stored; eassumption.
      * eapply WeatherFailed; eassumption.
    + intros H. injection H as <- <-. eapply GeocodingFailed; eassumption.
  - destruct (Cache_get_total h (toLowerCase h city) p) as [c [Hc _]].
    rewrite Hget in Hc. discriminate.
Qed.

Lemma getTemperature_hit (h : Host) (city : jsstring) (p : Page) (item : Item) :
  data p !! toLowerCase h city = Some item -> fresh h p item ->
  API.getTemperature h city p = (Ok (item_value item), tick p).
Proof.
  intros Hl Hf. rewrite getTemperature_cases. cbv zeta.
  rewrite (Cache_get_hit h _ p item Hl Hf). reflexivity.
Qed.

(** The [fetch] calls of a call that finds no fresh entry and gets as far
    as the weather request. *)
Lemma Stored_calls (h : Host) (city : jsstring) (p p0 p1 p2 : Page)
    (location : Location) (res : Result value) :
  Cache.get h (toLowerCase h city) p = (Ok None, p0) ->
  API.getCoordinates h city p0 = (Ok location, p1) ->
  API.getWeather h (latitude location) (longitude location) p1 = (res, p2) ->
  calls p1 = calls p ++ [GeocodingRequest city]
  /\ calls p2 = calls p ++ [GeocodingRequest city;
                            WeatherRequest (latitude location) (longitude location)]
  /\ data p2 = delete (toLowerCase h city) (data p).
Proof.
  intros Hget Hgeo Hw.
  apply Cache_get_None in Hget. destruct Hget as [Hd0 [Hc0 _]].
  apply getCoordinates_frame in Hgeo.
  destruct Hgeo as [Hd1 [_ [[_ [Habs _]] | [_ Hc1]]]]; [discriminate |].
  apply getWeather_frame in Hw. destruct Hw as [Hd2 [_ Hc2]].
  rewrite Hc2, Hc1, Hc0, Hd2, Hd1, Hd0, <- app_assoc. auto.
Qed.

(** After a successful call the reading it returned is in the cache, under
    the lowercased city. *)
Lemma getTemperature_success_entry (h : Host) (city : jsstring) (p : Page)
    (r : Reading) (p1 : Page) :
  API.getTemperature h city p = (Ok r, p1) ->
  exists ts, data p1 !! toLowerCase h city = Some (mkItem r ts).
Proof.
  intros H. apply getTemperature_Outcome in H.
  inversion H as [item Hl Hf | | | p0 loc p1' t p2 Hget Hgeo Hw]; subst.
  - exists (timestamp item). simpl. rewrite Hl. destruct item; reflexivity.
  - eexists. simpl. apply lookup_insert_eq.
Qed.

(** A second call, for a city with the same lowercase form, that finds the
    entry of a successful first call still fresh. *)
Lemma getTemperature_again (h : Host) (c1 c2 : jsstring) (p : Page)
    (r : Reading) (p1 : Page) :
  toLowerCase h c1 = toLowerCase h c2 ->
  API.getTemperature h c1 p = (Ok r, p1) ->
  (forall item, data p1 !! toLowerCase h c1 = Some item -> fresh h p1 item) ->
  API.getTemperature h c2 p1 = (Ok r, tick p1).
Proof.
  intros Hcase Hfirst Hwithin.
  destruct (getTemperature_success_entry h c1 p r p1 Hfirst) as [ts Hentry].
  specialize (Hwithin _ Hentry). rewrite Hcase in Hentry.
  exact (getTemperature_hit h c2 p1 (mkItem r ts) Hentry Hwithin).
Qed.

(** C3.  For every string and every state of the cache, [Cache.get] on the
    lowercased string (the program calls [Cache.get] in [getTemperature]
    only, on [city.toLowerCase()]; [Cache.get] itself uses the key as it is
    given, see [Cache_get_cases]) returns a value exactly when the map has
    an entry under that key whose timestamp is at most 300000 ms before the
    clock reading, and the value is the stored one; on an entry older than
    that it returns nothing and removes the entry; without an entry it
    returns nothing and changes nothing; a hit leaves the map as it is. *)
Theorem Cache_get_lookup (h : Host) (key : jsstring) (p : Page) :
  (forall v,
      fst (Cache.get h (toLowerCase h key) p) = Ok (Some v)
      <-> exists item,
            data p !! toLowerCase h key = Some item /\ item_value item = v
            /\ (now h (readings p) - timestamp item <= 300000)%Z)
  /\ (forall item,
        data p !! toLowerCase h key = Some item ->
        (now h (readings p) - timestamp item > 300000)%Z ->
        fst (Cache.get h (toLowerCase h key) p) = Ok None
        /\ data (snd (Cache.get h (toLowerCase h key) p))
           = delete (toLowerCase h key) (data p)
        /\ data (snd (Cache.get h (toLowerCase h key) p)) !! toLowerCase h key = None)
  /\ (data p !! toLowerCase h key = None ->
      Cache.get h (toLowerCase h key) p = (Ok None, p))
  /\ (forall v,
        fst (Cache.get h (toLowerCase h key) p) = Ok (Some v) ->
        data (snd (Cache.get h (toLowerCase h key) p)) = data p).
Proof.
  generalize (toLowerCase h key). intros k.
  rewrite Cache_get_cases.
  change 300000%Z with CONFIG.CACHE_DURATION.
  destruct (data p !! k) as [item |] eqn:Hl.
  - destruct (Z.gtb_spec (now h (readings p) - timestamp item) CONFIG.CACHE_DURATION)
      as [Hlt | Hle]; simpl.
    + split; [| split; [| split]].
      * intros v. split; [discriminate |].
        intros [item' [Heq [_ Hf]]]. injection Heq as <-. lia.
      * intros item' Heq _. injection Heq as <-.
        split; [reflexivity |]. split; [reflexivity | apply lookup_delete_eq].
      * discriminate.
      * discriminate.
    + split; [| split; [| split]].
      * intros v. split.
        -- intros H. injection H as <-. exists item. auto.
        -- intros [item' [Heq [Hv _]]]. injection Heq as <-. rewrite Hv. reflexivity.
      * intros item' Heq Hexp. injection Heq as <-. lia.
      * discriminate.
      * reflexivity.
  - simpl. split; [| split; [| split]].
    + intros v. split; [discriminate |]. intros [item [Heq _]]. discriminate.
    + discriminate.
    + reflexivity.
    + discriminate.
Qed.

(** C1.  When a call of [getTemperature] finds no fresh entry for the city
    and succeeds, and the same call is made again while the entry it stored
    is within [CACHE_DURATION] (300000 ms), then the first call made one
    geocoding call followed by one weather call, the second makes no call
    and changes nothing in the cache, and the second returns the very
    reading the first one stored and returned. *)
Theorem getTemperature_twice_within_TTL (h : Host) (city : jsstring) (p : Page)
    (r : Reading) (p1 : Page)
    (Hmiss : fst (Cache.get h (toLowerCase h city) p) = Ok None)
    (Hfirst : API.getTemperature h city p = (Ok r, p1))
    (Hwithin : forall item,
        data p1 !! toLowerCase h city = Some item ->
        (now h (readings p1) - timestamp item <= 300000)%Z) :
  (exists lat lon,
      calls p1 = calls p ++ [GeocodingRequest city; WeatherRequest lat lon])
  /\ (exists ts, data p1 !! toLowerCase h city = Some (mkItem r ts))
  /\ exists p2,
       API.getTemperature h city p1 = (Ok r, p2)
       /\ calls p2 = calls p1 /\ data p2 = data p1.
Proof.
  split; [| split].
  - pose proof (getTemperature_Outcome _ _ _ _ _ Hfirst) as Hout.
    inversion Hout as [item Hl Hf | | | p0 loc p1' t p2 Hget Hgeo Hw]; subst.
    + rewrite (Cache_get_hit h _ p item Hl Hf) in Hmiss. discriminate.
    + destruct (Stored_calls _ _ _ _ _ _ _ _ Hget Hgeo Hw) as [_ [Hc _]].
      simpl. eauto.
  - exact (getTemperature_success_entry _ _ _ _ _ Hfirst).
  - exists (tick p1). split; [| split; reflexivity].
    exact (getTemperature_again h city city p r p1 eq_refl Hfirst Hwithin).
Qed.

Example getTemperature_Berlin_page :
  API.getTemperature berlinHost (units "Berlin") emptyPage = (Ok berlinReading, berlinPage).
Proof. vm_compute. reflexivity. Qed.

Lemma getTemperature_twice_within_TTL_witness :
  fst (Cache.get berlinHost (toLowerCase berlinHost (units "Berlin")) emptyPage) = Ok None
  /\ API.getTemperature berlinHost (units "Berlin") emptyPage = (Ok berlinReading, berlinPage)
  /\ exists p2,
       API.getTemperature berlinHost (units "Berlin") berlinPage = (Ok berlinReading, p2)
       /\ calls p2 = calls berlinPage /\ data p2 = data berlinPage.
Proof.
  split; [reflexivity |]. split; [vm_compute; reflexivity |].
  apply (getTemperature_twice_within_TTL berlinHost (units "Berlin") emptyPage
           berlinReading berlinPage).
  - reflexivity.
  - vm_compute. reflexivity.
  - intros item H. vm_compute in H. injection H as <-. vm_compute. discriminate.
Defined.

(** ** Failures and the cache *)

Example outage_first_call :
  API.getTemperature outageHost (units "Berlin") emptyPage = (Ok berlinReading, berlinPage).
Proof. vm_compute. reflexivity. Qed.

(** C2, as worded, fails: a failing call whose lookup finds an expired
    entry has removed that entry, so the cache is not what it was before
    the call.  Here the entry for Berlin, stored by an earlier successful
    call, is ten minutes old when the second call is made, and the
    geocoding service answers 503. *)
Lemma getTemperature_failure_drops_expired :
  fst (API.getTemperature outageHost (units "Berlin") berlinPage)
    = Throw (GeocodingTransportError 503)
  /\ data (snd (API.getTemperature outageHost (units "Berlin") berlinPage))
     <> data berlinPage.
Proof.
  split; [vm_compute; reflexivity |].
  intros Heq. apply (f_equal (fun m => m !! units "berlin")) in Heq.
  vm_compute in Heq. discriminate.
Qed.

(** C2 (amended).  When [getTemperature] fails, with whatever error, it has
    added and changed no entry: the cache is the one from before the call
    without the entry under the lowercased city, and such an entry, if
    there was one, was expired at the lookup.  In particular, when there
    was no entry under that key the cache is exactly as before. *)
Theorem getTemperature_failure_cache (h : Host) (city : jsstring) (p : Page)
    (e : Error) (p' : Page)
    (Hfail : API.getTemperature h city p = (Throw e, p')) :
  data p' = delete (toLowerCase h city) (data p)
  /\ (forall item,
        data p !! toLowerCase h city = Some item ->
        (now h (readings p) - timestamp item > 300000)%Z)
  /\ (data p !! toLowerCase h city = None -> data p' = data p)
  /\ (forall k item, data p' !! k = Some item -> data p !! k = Some item).
Proof.
  assert (data p' = delete (toLowerCase h city) (data p)
          /\ forall item, data p !! toLowerCase h city = Some item -> expired h p item)
    as [Hd Hexp].
  { apply getTemperature_Outcome in Hfail.
    inversion Hfail as [| p0 e0 p1 Hget Hgeo | p0 loc p1 e0 p2 Hget Hgeo Hw |]; subst.
    - apply Cache_get_None in Hget. destruct Hget as [Hd0 [_ [Hexp _]]].
      apply getCoordinates_frame in Hgeo. destruct Hgeo as [Hd1 _].
      split; [congruence | exact Hexp].
    - apply Cache_get_None in Hget. destruct Hget as [Hd0 [_ [Hexp _]]].
      apply getCoordinates_frame in Hgeo. destruct Hgeo as [Hd1 _].
      apply getWeather_frame in Hw. destruct Hw as [Hd2 _].
      split; [congruence | exact Hexp]. }
  split; [exact Hd |]. split; [exact Hexp |]. split.
  - intros Hnone. rewrite Hd. apply delete_id. exact Hnone.
  - intros k item. rewrite Hd. rewrite lookup_delete_Some. tauto.
Qed.

Lemma getTemperature_failure_cache_witness :
  API.getTemperature outageHost (units "Berlin") berlinPage
    = (Throw (GeocodingTransportError 503),
       mkPage ∅ 2 [GeocodingRequest (units "Berlin"); WeatherRequest num_52_52 num_13_405;
                   GeocodingRequest (units "Berlin")])
  /\ (∅ : gmap jsstring Item) = delete (toLowerCase outageHost (units "Berlin")) (data berlinPage).
Proof.
  split; [vm_compute; reflexivity |].
  apply (getTemperature_failure_cache outageHost (units "Berlin") berlinPage
           (GeocodingTransportError 503)
           (mkPage ∅ 2 [GeocodingRequest (units "Berlin");
                        WeatherRequest num_52_52 num_13_405;
                        GeocodingRequest (units "Berlin")])).
  vm_compute. reflexivity.
Defined.

(** ** The order of the two requests *)

(** C8.  The [fetch] calls of one call of [getTemperature] are none, or the
    geocoding request alone (and then the call fails), or the geocoding
    request followed by the weather request.  In the last case
    [getCoordinates] had returned a location, on a page whose log already
    ends with the geocoding request, and the weather request carries the
    latitude and longitude of that location. *)
Theorem getTemperature_calls_sequential (h : Host) (city : jsstring) (p : Page) :
  exists new,
    calls (snd (API.getTemperature h city p)) = calls p ++ new
    /\ (new = []
        \/ (new = [GeocodingRequest city]
            /\ exists e, fst (API.getTemperature h city p) = Throw e)
        \/ (exists p0 location p1,
              Cache.get h (toLowerCase h city) p = (Ok None, p0)
              /\ API.getCoordinates h city p0 = (Ok location, p1)
              /\ calls p1 = calls p ++ [GeocodingRequest city]
              /\ new = [GeocodingRequest city;
                        WeatherRequest (latitude location) (longitude location)])).
Proof.
  destruct (API.getTemperature h city p) as [res p'] eqn:Hrun. simpl.
  apply getTemperature_Outcome in Hrun.
  inversion Hrun as [item Hl Hf
                    | p0 e p1 Hget Hgeo
                    | p0 loc p1 e p2 Hget Hgeo Hw
                    | p0 loc p1 t p2 Hget Hgeo Hw]; subst.
  - exists []. simpl. rewrite app_nil_r. auto.
  - apply Cache_get_None in Hget. destruct Hget as [_ [Hc0 _]].
    apply getCoordinates_frame in Hgeo.
    destruct Hgeo as [_ [_ [[_ [_ Hc] ] | [_ Hc]]]].
    + exists []. rewrite app_nil_r. split; [congruence | auto].
    + exists [GeocodingRequest city]. split; [congruence |].
      right. left. eauto.
  - destruct (Stored_calls _ _ _ _ _ _ _ _ Hget Hgeo Hw) as [Hc1 [Hc2 _]].
    eexists. split; [exact Hc2 |]. right. right. eauto 8.
  - destruct (Stored_calls _ _ _ _ _ _ _ _ Hget Hgeo Hw) as [Hc1 [Hc2 _]].
    eexists. split; [exact Hc2 |]. right. right. eauto 8.
Qed.

(** ** Lowercase keys *)

Lemma getTemperature_data (h : Host) (city : jsstring) (p : Page)
    (res : Result Reading) (p' : Page) :
  API.getTemperature h city p = (res, p') ->
  data p' = data p
  \/ data p' = delete (toLowerCase h city) (data p)
  \/ exists item, data p' = <[toLowerCase h city := item]> (data p).
Proof.
  intros Hrun. apply getTemperature_Outcome in Hrun.
  inversion Hrun as [item Hl Hf
                    | p0 e p1 Hget Hgeo
                    | p0 loc p1 e p2 Hget Hgeo Hw
                    | p0 loc p1 t p2 Hget Hgeo Hw]; subst.
  - left. reflexivity.
  - right. left.
    apply Cache_get_None in Hget. destruct Hget as [Hd0 _].
    apply getCoordinates_frame in Hgeo. destruct Hgeo as [Hd1 _]. congruence.
  - right. left. exact (proj2 (proj2 (Stored_calls _ _ _ _ _ _ _ _ Hget Hgeo Hw))).
  - right. right. eexists. simpl.
    rewrite (proj2 (proj2 (Stored_calls _ _ _ _ _ _ _ _ Hget Hgeo Hw))).
    apply insert_delete_eq.
Qed.

(** A call touches no entry but the one under the lowercased city. *)
Lemma getTemperature_other_keys (h : Host) (city : jsstring) (p : Page) (k : jsstring) :
  k <> toLowerCase h city ->
  data (snd (API.getTemperature h city p)) !! k = data p !! k.
Proof.
  intros Hk. destruct (API.getTemperature h city p) as [res p'] eqn:Hrun. simpl.
  destruct (getTemperature_data _ _ _ _ _ Hrun) as [-> | [-> | [item ->]]].
  - reflexivity.
  - apply lookup_delete_ne. congruence.
  - apply lookup_insert_ne. congruence.
Qed.

Lemma getTemperature_keysLowercase (h : Host) (city : jsstring) (p : Page) :
  (forall s, toLowerCase h (toLowerCase h s) = toLowerCase h s) ->
  keysLowercase h p ->
  keysLowercase h (snd (API.getTemperature h city p)).
Proof.
  intros Hidem Hinv k Hk.
  destruct (decide (k = toLowerCase h city)) as [-> | Hne]; [apply Hidem |].
  rewrite (getTemperature_other_keys h city p k Hne) in Hk. exact (Hinv k Hk).
Qed.

Lemma reachable_keysLowercase (h : Host) (p : Page) :
  (forall s, toLowerCase h (toLowerCase h s) = toLowerCase h s) ->
  reachable h p -> keysLowercase h p.
Proof.
  intros Hidem Hr. induction Hr as [| city p Hr IH | p Hr IH].
  - intros k [item Hk]. simpl in Hk. rewrite lookup_empty in Hk. discriminate.
  - apply getTemperature_keysLowercase; assumption.
  - intros k [item Hk]. simpl in Hk. rewrite lookup_empty in Hk. discriminate.
Qed.

Lemma isLatin1Upper_lowered (c : N) :
  isLatin1Upper c = true -> isLatin1Upper (c + 0x20) = false.
Proof.
  unfold isLatin1Upper. intros H.
  repeat match goal with
         | H : context [N.leb ?a ?b] |- _ => destruct (N.leb_spec a b)
         | H : context [N.eqb ?a ?b] |- _ => destruct (N.eqb_spec a b)
         | |- context [N.leb ?a ?b] => destruct (N.leb_spec a b)
         | |- context [N.eqb ?a ?b] => destruct (N.eqb_spec a b)
         end;
    cbn [andb orb negb] in *; try discriminate; try reflexivity; lia.
Qed.

Lemma latin1LowerUnit_idem (c : N) :
  latin1LowerUnit (latin1LowerUnit c) = latin1LowerUnit c.
Proof.
  unfold latin1LowerUnit. destruct (isLatin1Upper c) eqn:Hc.
  - rewrite (isLatin1Upper_lowered c Hc). reflexivity.
  - rewrite Hc. reflexivity.
Qed.

Lemma latin1ToLowerCase_idem (s : jsstring) :
  latin1ToLowerCase (latin1ToLowerCase s) = latin1ToLowerCase s.
Proof.
  unfold latin1ToLowerCase. rewrite map_map.
  apply map_ext. exact latin1LowerUnit_idem.
Qed.

(** C9.  On a host whose [toLowerCase] is idempotent, and a page whose
    cache keys are all lowercase: a call of [getTemperature] looks up,
    deletes and stores under the lowercased city only, so that the cache
    after it is the cache before it, or that without the entry under the
    lowercased city, or that with an entry stored under the lowercased
    city, and every other entry is as it was; the keys
    of the cache are all lowercase after it, as they are on every page the
    program can reach; and a call for a city with the same lowercase form
    as that of an earlier successful call, made while the entry of the
    earlier one is fresh, finds that entry and returns its reading. *)
Theorem getTemperature_keys_lowercase (h : Host) (c1 : jsstring) (p : Page)
    (Hidem : forall s, toLowerCase h (toLowerCase h s) = toLowerCase h s)
    (Hinv : keysLowercase h p) :
  (data (snd (API.getTemperature h c1 p)) = data p
   \/ data (snd (API.getTemperature h c1 p)) = delete (toLowerCase h c1) (data p)
   \/ exists item,
        data (snd (API.getTemperature h c1 p)) = <[toLowerCase h c1 := item]> (data p))
  /\ (forall k, k <> toLowerCase h c1 ->
                data (snd (API.getTemperature h c1 p)) !! k = data p !! k)
  /\ keysLowercase h (snd (API.getTemperature h c1 p))
  /\ (forall q, reachable h q -> keysLowercase h q)
  /\ (forall c2 r p1,
        toLowerCase h c2 = toLowerCase h c1 ->
        API.getTemperature h c1 p = (Ok r, p1) ->
        (forall item,
            data p1 !! toLowerCase h c1 = Some item ->
            (now h (readings p1) - timestamp item <= 300000)%Z) ->
        (exists ts, data p1 !! toLowerCase h c2 = Some (mkItem r ts))
        /\ API.getTemperature h c2 p1 = (Ok r, tick p1)).
Proof.
  split; [| split; [| split; [| split]]].
  - destruct (API.getTemperature h c1 p) as [res p'] eqn:Hrun.
    exact (getTemperature_data _ _ _ _ _ Hrun).
  - intros k Hk. apply getTemperature_other_keys. exact Hk.
  - apply getTemperature_keysLowercase; assumption.
  - intros q Hq. apply reachable_keysLowercase; assumption.
  - intros c2 r p1 Hcase Hfirst Hwithin. split.
    + rewrite Hcase. exact (getTemperature_success_entry _ _ _ _ _ Hfirst).
    + exact (getTemperature_again h c1 c2 p r p1 (eq_sym Hcase) Hfirst Hwithin).
Qed.

Lemma getTemperature_keys_lowercase_witness :
  toLowerCase berlinHost (units "BERLIN") = toLowerCase berlinHost (units "Berlin")
  /\ API.getTemperature berlinHost (units "Berlin") emptyPage = (Ok berlinReading, berlinPage)
  /\ API.getTemperature berlinHost (units "BERLIN") berlinPage
     = (Ok berlinReading, tick berlinPage).
Proof.
  split; [reflexivity |]. split; [vm_compute; reflexivity |].
  apply (getTemperature_keys_lowercase berlinHost (units "Berlin") emptyPage).
  - exact latin1ToLowerCase_idem.
  - intros k [item Hk]. simpl in Hk. rewrite lookup_empty in Hk. discriminate.
  - reflexivity.
  - vm_compute. reflexivity.
  - intros item H. vm_compute in H. injection H as <-. vm_compute. discriminate.
Defined.

(** ** The reading *)

(** What a successful [getCoordinates] has read. *)
Lemma getCoordinates_Ok (h : Host) (city : jsstring) (p : Page)
    (location : Location) (p' : Page) :
  API.getCoordinates h city p = (Ok location, p') ->
  exists response data results result0 country0,
    fetch h (length (calls p)) (GeocodingRequest city) = Resolved response
    /\ ok response = true
    /\ body response = Some data
    /\ member data (units "results") = Ok results
    /\ first results = Ok result0
    /\ member result0 (units "latitude") = Ok (latitude location)
    /\ member result0 (units "longitude") = Ok (longitude location)
    /\ member result0 (units "name") = Ok (name location)
    /\ member result0 (units "country") = Ok country0
    /\ country location = (if truthy country0 then country0 else VStr []).
Proof.
  unfold API.getCoordinates, bind, lift, await_fetch, await_json, throw, ret.
  simpl. repeat (break_match; simpl); intros H; try discriminate;
    injection H as <- <-; simpl;
    match goal with
    | Hn : negb (ok ?r) = false |- _ => apply negb_false_iff in Hn
    end;
    do 5 eexists; repeat (split; [eassumption || reflexivity |]);
    match goal with
    | Hb : truthy _ = _ |- _ => rewrite Hb; reflexivity
    end.
Qed.

(** What a successful [getWeather] has read. *)
Lemma getWeather_Ok (h : Host) (lat lon : value) (p : Page)
    (temperature : value) (p' : Page) :
  API.getWeather h lat lon p = (Ok temperature, p') ->
  exists response data current,
    fetch h (length (calls p)) (WeatherRequest lat lon) = Resolved response
    /\ ok response = true
    /\ body response = Some data
    /\ member data (units "current") = Ok current
    /\ member current (units "temperature_2m") = Ok temperature.
Proof.
  unfold API.getWeather, bind, lift, await_fetch, await_json, throw, ret.
  simpl. repeat (break_match; simpl); intros H; try discriminate.
  injection H as <- <-. simpl.
  match goal with
  | Hn : negb (ok ?r) = false |- _ => apply negb_false_iff in Hn
  end.
  do 3 eexists. repeat (split; [eassumption || reflexivity |]).
  first [eassumption | reflexivity].
Qed.

Lemma ok_status (s : Z) (b : option value) :
  (200 <= s <= 299)%Z -> ok (mkResponse s b) = true.
Proof.
  intros [Hlo Hhi]. unfold ok. simpl.
  apply andb_true_iff. split; apply Z.leb_le; assumption.
Qed.

(** The run of [getTemperature] on the two responses of the example. *)
Lemma getTemperature_Berlin_responses (h : Host) (city : jsstring) (p : Page)
    (gstatus wstatus : Z) :
  fst (Cache.get h (toLowerCase h city) p) = Ok None ->
  wellFormed city = true ->
  fetch h (length (calls p)) (GeocodingRequest city)
    = Resolved (mkResponse gstatus (Some berlinGeocoding)) ->
  (200 <= gstatus <= 299)%Z ->
  fetch h (S (length (calls p))) (WeatherRequest num_52_52 num_13_405)
    = Resolved (mkResponse wstatus (Some berlinWeather)) ->
  (200 <= wstatus <= 299)%Z ->
  fst (API.getTemperature h city p) = Ok berlinReading.
Proof.
  intros Hmiss Hwf Hgeo Hgs Hw Hws.
  destruct (Cache.get h (toLowerCase h city) p) as [res0 p0] eqn:Hget.
  simpl in Hmiss. subst res0.
  destruct (Cache_get_None _ _ _ _ Hget) as [_ [Hc0 _]].
  assert (API.getCoordinates h city p0
          = (Ok (mkLocation num_52_52 num_13_405 (VStr (units "Berlin"))
                            (VStr (units "Germany"))),
             mkPage (data p0) (readings p0) (calls p0 ++ [GeocodingRequest city])))
    as Hloc.
  { unfold API.getCoordinates, bind, lift, await_fetch. rewrite Hwf, Hc0, Hgeo.
    cbv beta iota. rewrite (ok_status _ _ Hgs). reflexivity. }
  assert (API.getWeather h num_52_52 num_13_405
            (mkPage (data p0) (readings p0) (calls p0 ++ [GeocodingRequest city]))
          = (Ok num_9_3,
             mkPage (data p0) (readings p0)
                    ((calls p0 ++ [GeocodingRequest city])
                       ++ [WeatherRequest num_52_52 num_13_405])))
    as Htemp.
  { unfold API.getWeather, bind, lift, await_fetch. simpl calls.
    rewrite Hc0, length_app, Nat.add_1_r, Hw.
    cbv beta iota. rewrite (ok_status _ _ Hws). reflexivity. }
  rewrite getTemperature_cases. cbv zeta. rewrite Hget, Hloc.
  simpl latitude. simpl longitude. rewrite Htemp. reflexivity.
Qed.

(** C7.  On the two responses of the example (whatever the success status
    they come with, for a city that can be put in a URL and is not in the
    cache) [getTemperature] returns
    [{city: "Berlin", country: "Germany", temperature: 9.3}].  In general
    the reading a call obtains from the network has as its city the [name]
    of [results[0]] of the geocoding response, as its country the
    [country] of that result, or the empty string when that is absent (or
    otherwise falsy), and as its temperature the value of
    [current.temperature_2m] of the weather response for the coordinates
    of that result, as it is. *)
Theorem getTemperature_reading :
  (forall (h : Host) (city : jsstring) (p : Page) (gstatus wstatus : Z),
      fst (Cache.get h (toLowerCase h city) p) = Ok None ->
      wellFormed city = true ->
      fetch h (length (calls p)) (GeocodingRequest city)
        = Resolved (mkResponse gstatus (Some berlinGeocoding)) ->
      (200 <= gstatus <= 299)%Z ->
      fetch h (S (length (calls p))) (WeatherRequest num_52_52 num_13_405)
        = Resolved (mkResponse wstatus (Some berlinWeather)) ->
      (200 <= wstatus <= 299)%Z ->
      fst (API.getTemperature h city p) = Ok berlinReading)
  /\ (forall (h : Host) (city : jsstring) (p : Page) (r : Reading) (p' : Page),
        fst (Cache.get h (toLowerCase h city) p) = Ok None ->
        API.getTemperature h city p = (Ok r, p') ->
        exists gresponse gdata results result0 country0 latitude0 longitude0
               wresponse wdata current,
          fetch h (length (calls p)) (GeocodingRequest city) = Resolved gresponse
          /\ body gresponse = Some gdata
          /\ member gdata (units "results") = Ok results
          /\ first results = Ok result0
          /\ member result0 (units "name") = Ok (r_city r)
          /\ member result0 (units "country") = Ok country0
          /\ r_country r = (if truthy country0 then country0 else VStr [])
          /\ member result0 (units "latitude") = Ok latitude0
          /\ member result0 (units "longitude") = Ok longitude0
          /\ fetch h (S (length (calls p))) (WeatherRequest latitude0 longitude0)
             = Resolved wresponse
          /\ body wresponse = Some wdata
          /\ member wdata (units "current") = Ok current
          /\ member current (units "temperature_2m") = Ok (r_temperature r)).
Proof.
  split; [exact getTemperature_Berlin_responses |].
  intros h city p r p' Hmiss Hrun.
  pose proof (getTemperature_Outcome _ _ _ _ _ Hrun) as Hout.
  inversion Hout as [item Hl Hf | | | p0 loc p1 t p2 Hget Hgeo Hw]; subst.
  - rewrite (Cache_get_hit h _ p item Hl Hf) in Hmiss. discriminate.
  - destruct (Stored_calls _ _ _ _ _ _ _ _ Hget Hgeo Hw) as [Hc1 _].
    destruct (Cache_get_None _ _ _ _ Hget) as [_ [Hc0 _]].
    destruct (getCoordinates_Ok _ _ _ _ _ Hgeo)
      as (gresponse & gdata & results & result0 & country0
          & Hf1 & _ & Hb1 & Hres & Hfirst & Hlat & Hlon & Hname & Hcountry & Hc).
    destruct (getWeather_Ok _ _ _ _ _ _ Hw)
      as (wresponse & wdata & current & Hf2 & _ & Hb2 & Hcur & Htemp).
    rewrite Hc0 in Hf1. rewrite Hc1, length_app, Nat.add_1_r in Hf2.
    exists gresponse, gdata, results, result0, country0,
           (latitude loc), (longitude loc), wresponse, wdata, current.
    simpl. auto 15.
Qed.

Lemma getTemperature_reading_witness :
  fst (API.getTemperature berlinHost (units "Berlin") emptyPage) = Ok berlinReading
  /\ exists result0,
       first (VArr [VObj [(units "latitude", num_52_52);
                          (units "longitude", num_13_405);
                          (units "name", VStr (units "Berlin"));
                          (units "country", VStr (units "Germany"))]]) = Ok result0
       /\ member result0 (units "name") = Ok (r_city berlinReading).
Proof.
  split.
  - apply (proj1 getTemperature_reading berlinHost (units "Berlin") emptyPage 200%Z 200%Z).
    + reflexivity.
    + reflexivity.
    + reflexivity.
    + lia.
    + reflexivity.
    + lia.
  - destruct (proj2 getTemperature_reading berlinHost (units "Berlin") emptyPage
                berlinReading berlinPage)
      as (gresponse & gdata & results & result0 & country0 & latitude0 & longitude0
          & wresponse & wdata & current
          & Hf1 & Hb1 & Hres & Hfirst & Hname & _).
    + reflexivity.
    + vm_compute. reflexivity.
    + exists result0. split; [| exact Hname].
      vm_compute in Hf1. injection Hf1 as <-.
      vm_compute in Hb1. injection Hb1 as <-.
      vm_compute in Hres. injection Hres as <-.
      vm_compute in Hfirst. vm_compute. exact Hfirst.
Defined.

(** * Further properties of the code *)

(** ** Cache.set, Cache.get and Cache.clear together *)

(** X1.  [Cache.get] right after [Cache.set] on the same key: whatever the
    map held under the key before, the value just set comes back when the
    clock has advanced by at most 300000 ms between the two readings, and
    the entry is dropped again (and nothing returned) when it has advanced
    by more. *)
Theorem Cache_set_then_get (h : Host) (key : jsstring) (v : Reading) (p : Page) :
  Cache.get h key (snd (Cache.set h key v p)) =
    if (now h (S (readings p)) - now h (readings p) >? 300000)%Z
    then (Ok None,
          mkPage (delete key (data p)) (S (S (readings p))) (calls p))
    else (Ok (Some v),
          mkPage (<[key := mkItem v (now h (readings p))]> (data p))
                 (S (S (readings p))) (calls p)).
Proof.
  rewrite Cache_set_cases, Cache_get_cases. simpl.
  rewrite lookup_insert_eq. simpl.
  change CONFIG.CACHE_DURATION with 300000%Z.
  destruct (now h (S (readings p)) - now h (readings p) >? 300000)%Z;
    [| reflexivity].
  rewrite delete_insert_eq. reflexivity.
Qed.

(** X2.  Expiry is final.  Once [Cache.get] has answered [null] for a key,
    it answers [null] for that key again, whatever the clock shows then
    (it does not even read it), until something is stored under the key. *)
Theorem Cache_get_null_stays_null (h h' : Host) (key : jsstring) (p : Page)
    (Hnull : fst (Cache.get h key p) = Ok None) :
  Cache.get h' key (snd (Cache.get h key p))
  = (Ok None, snd (Cache.get h key p)).
Proof.
  destruct (Cache.get h key p) as [res p0] eqn:Hget. simpl in *. subst res.
  destruct (Cache_get_None _ _ _ _ Hget) as [Hd _].
  rewrite Cache_get_cases, Hd, lookup_delete_eq. reflexivity.
Qed.

Lemma Cache_get_null_stays_null_witness :
  fst (Cache.get outageHost (units "berlin") berlinPage) = Ok None
  /\ Cache.get berlinHost (units "berlin")
       (snd (Cache.get outageHost (units "berlin") berlinPage))
     = (Ok None, snd (Cache.get outageHost (units "berlin") berlinPage)).
Proof.
  split; [vm_compute; reflexivity |].
  apply (Cache_get_null_stays_null outageHost berlinHost (units "berlin") berlinPage).
  vm_compute. reflexivity.
Defined.

(** A call that finds nothing under the lowercased city, for a city that
    can be put in a URL, makes the geocoding request. *)
Lemma getTemperature_miss_requests (h : Host) (city : jsstring) (p : Page) :
  data p !! toLowerCase h city = None ->
  wellFormed city = true ->
  exists rest,
    calls (snd (API.getTemperature h city p))
    = calls p ++ GeocodingRequest city :: rest.
Proof.
  intros Hnone Hwf.
  destruct (API.getTemperature h city p) as [res p'] eqn:Hrun. simpl.
  apply getTemperature_Outcome in Hrun.
  inversion Hrun as [item Hl Hf
                    | p0 e p1 Hget Hgeo
                    | p0 loc p1 e p2 Hget Hgeo Hw
                    | p0 loc p1 t p2 Hget Hgeo Hw]; subst.
  - congruence.
  - destruct (Cache_get_None _ _ _ _ Hget) as [_ [Hc0 _]].
    apply getCoordinates_frame in Hgeo.
    destruct Hgeo as [_ [_ [[Habs _] | [_ Hc]]]]; [congruence |].
    exists []. congruence.
  - destruct (Stored_calls _ _ _ _ _ _ _ _ Hget Hgeo Hw) as [_ [Hc _]].
    eexists. exact Hc.
  - destruct (Stored_calls _ _ _ _ _ _ _ _ Hget Hgeo Hw) as [_ [Hc _]].
    eexists. exact Hc.
Qed.

(** X3.  [Cache.clear] forgets everything: after it every lookup answers
    [null] without reading the clock, and [getTemperature], for any city
    that can be put in a URL, goes to the geocoding service again. *)
Theorem Cache_clear_forgets (h : Host) (city : jsstring) (p : Page)
    (Hwf : wellFormed city = true) :
  (forall key,
      Cache.get h key (snd (Cache.clear p)) = (Ok None, snd (Cache.clear p)))
  /\ exists rest,
       calls (snd (API.getTemperature h city (snd (Cache.clear p))))
       = calls p ++ GeocodingRequest city :: rest.
Proof.
  split.
  - intros key. rewrite Cache_get_cases. simpl. rewrite lookup_empty. reflexivity.
  - apply (getTemperature_miss_requests h city (snd (Cache.clear p)));
      [apply lookup_empty | exact Hwf].
Qed.

Lemma Cache_clear_forgets_witness :
  wellFormed (units "Berlin") = true
  /\ exists rest,
       calls (snd (API.getTemperature berlinHost (units "Berlin")
                     (snd (Cache.clear berlinPage))))
       = calls berlinPage ++ GeocodingRequest (units "Berlin") :: rest.
Proof.
  split; [reflexivity |].
  apply (Cache_clear_forgets berlinHost (units "Berlin") berlinPage).
  reflexivity.
Defined.

(** ** getCoordinates *)

(** The page after one more [fetch] call. *)
Lemma await_fetch_page (h : Host) (req : Request) (p : Page) :
  snd (await_fetch h req p) = mkPage (data p) (readings p) (calls p ++ [req]).
Proof.
  unfold await_fetch. destruct (fetch h (length (calls p)) req); reflexivity.
Qed.

(** X4.  Failures of the geocoding request itself, for a city that can be
    put in a URL.  When [fetch] rejects, [getCoordinates] rejects with that
    error; when the response has a status outside 200..299 it throws the
    error that carries this status, whatever the body; when the body is
    not JSON it rejects with the error of [response.json()].  In each case
    exactly one request has been made and the cache and the clock are
    untouched. *)
Theorem getCoordinates_transport_failures (h : Host) (city : jsstring) (p : Page)
    (Hwf : wellFormed city = true) :
  let after := mkPage (data p) (readings p) (calls p ++ [GeocodingRequest city]) in
  (fetch h (length (calls p)) (GeocodingRequest city) = Rejected ->
   API.getCoordinates h city p = (Throw FetchRejected, after))
  /\ (forall r,
        fetch h (length (calls p)) (GeocodingRequest city) = Resolved r ->
        ok r = false ->
        API.getCoordinates h city p
        = (Throw (GeocodingTransportError (status r)), after))
  /\ (forall r,
        fetch h (length (calls p)) (GeocodingRequest city) = Resolved r ->
        ok r = true -> body r = None ->
        API.getCoordinates h city p = (Throw BodyRejected, after)).
Proof.
  cbv zeta. unfold API.getCoordinates, bind, lift, await_fetch, await_json, throw.
  rewrite Hwf. repeat split.
  - intros ->. reflexivity.
  - intros r -> Hok. cbv beta iota. rewrite Hok. reflexivity.
  - intros r -> Hok Hbody. cbv beta iota. rewrite Hok, Hbody. reflexivity.
Qed.

Lemma getCoordinates_transport_failures_witness :
  wellFormed (units "Berlin") = true
  /\ API.getCoordinates outageHost (units "Berlin") berlinPage
     = (Throw (GeocodingTransportError 503),
        mkPage (data berlinPage) (readings berlinPage)
               (calls berlinPage ++ [GeocodingRequest (units "Berlin")])).
Proof.
  split; [reflexivity |].
  apply (proj1 (proj2 (getCoordinates_transport_failures outageHost (units "Berlin")
                         berlinPage eq_refl))
           (mkResponse 503 None)); reflexivity.
Defined.

(** X5.  No place found.  On a 2xx response whose body has no [results],
    or has [results] that is [null], an empty array or anything else falsy
    or of length 0, [getCoordinates] throws the not-found error, which
    carries the city exactly as it was passed. *)
Theorem getCoordinates_not_found (h : Host) (city : jsstring) (p : Page)
    (r : Response) (data0 results : value)
    (Hwf : wellFormed city = true)
    (Hfetch : fetch h (length (calls p)) (GeocodingRequest city) = Resolved r)
    (Hok : ok r = true)
    (Hbody : body r = Some data0)
    (Hresults : member data0 (units "results") = Ok results)
    (Hnone : truthy results = false \/ lengthIsZero results = true) :
  API.getCoordinates h city p
  = (Throw (CityNotFound city),
     mkPage (data p) (readings p) (calls p ++ [GeocodingRequest city])).
Proof.
  unfold API.getCoordinates, bind, lift, await_fetch, await_json, throw, ret.
  rewrite Hwf, Hfetch. cbv beta iota. rewrite Hok, Hbody. cbv beta iota.
  rewrite Hresults. cbv beta iota.
  replace (negb (truthy results) || lengthIsZero results) with true;
    [reflexivity |].
  destruct Hnone as [-> | ->]; [reflexivity | apply eq_sym, orb_true_r].
Qed.

Lemma getCoordinates_not_found_witness :
  member (VObj []) (units "results") = Ok VUndefined
  /\ API.getCoordinates berlinHost (units "Atlantis") emptyPage
     = (Throw (CityNotFound (units "Atlantis")),
        mkPage ∅ 0 [GeocodingRequest (units "Atlantis")]).
Proof.
  split; [reflexivity |].
  apply (getCoordinates_not_found berlinHost (units "Atlantis") emptyPage
           (mkResponse 200 (Some (VObj []))) (VObj []) VUndefined);
    try reflexivity.
  left. reflexivity.
Defined.

(** X6.  The first result decides.  On a 2xx response whose [results] is an
    array that starts with an object, [getCoordinates] succeeds with the
    [latitude], [longitude] and [name] of that object as they are (a
    missing one is [undefined]: nothing is checked) and its [country], or
    the empty string when that is missing or falsy; the results after the
    first play no part. *)
Theorem getCoordinates_first_result (h : Host) (city : jsstring) (p : Page)
    (r : Response) (props fields : list (jsstring * value)) (others : list value)
    (Hwf : wellFormed city = true)
    (Hfetch : fetch h (length (calls p)) (GeocodingRequest city) = Resolved r)
    (Hok : ok r = true)
    (Hbody : body r = Some (VObj props))
    (Hresults : lookupProp (units "results") props = VArr (VObj fields :: others)) :
  API.getCoordinates h city p
  = (Ok (mkLocation
           (lookupProp (units "latitude") fields)
           (lookupProp (units "longitude") fields)
           (lookupProp (units "name") fields)
           (if truthy (lookupProp (units "country") fields)
            then lookupProp (units "country") fields
            else VStr [])),
     mkPage (data p) (readings p) (calls p ++ [GeocodingRequest city])).
Proof.
  unfold API.getCoordinates, bind, lift, await_fetch, await_json, throw, ret.
  rewrite Hwf, Hfetch. cbv beta iota. rewrite Hok, Hbody. cbv beta iota.
  unfold member at 1. rewrite Hresults. reflexivity.
Qed.

Lemma getCoordinates_first_result_witness :
  fst (API.getCoordinates (answering nameOnlyGeocoding) (units "Berlin") emptyPage)
  = Ok (mkLocation VUndefined VUndefined (VStr (units "Berlin")) (VStr [])).
Proof.
  rewrite (getCoordinates_first_result (answering nameOnlyGeocoding)
             (units "Berlin") emptyPage (mkResponse 200 (Some nameOnlyGeocoding))
             [(units "results",
               VArr [VObj [(units "name", VStr (units "Berlin"))]; VNull])]
             [(units "name", VStr (units "Berlin"))]
             [VNull]); reflexivity.
Defined.

(** A property read throws nothing but a TypeError. *)
Lemma member_throws (v : value) (k : jsstring) (e : Error) :
  member v k = Throw e -> e = TypeError.
Proof. destruct v; simpl; intros H; try discriminate; congruence. Qed.

Lemma first_throws (v : value) (e : Error) :
  first v = Throw e -> e = TypeError.
Proof.
  destruct v as [| | b | x | [|c s] | [|x l] | props]; simpl; intros H;
    try discriminate; congruence.
Qed.

Local Ltac read_throws :=
  match goal with
  | H : member _ _ = Throw _ |- _ => apply member_throws in H; subst
  | H : first _ = Throw _ |- _ => apply first_throws in H; subst
  end.

(** X7.  [getCoordinates] throws a URIError exactly when the city has a
    lone surrogate, and then it has made no request and changed nothing;
    for every other city it makes exactly one request, for the city as it
    was passed, and leaves the cache and the clock alone. *)
Theorem getCoordinates_requests (h : Host) (city : jsstring) (p : Page) :
  (wellFormed city = false ->
   API.getCoordinates h city p = (Throw URIError, p))
  /\ (wellFormed city = true ->
      fst (API.getCoordinates h city p) <> Throw URIError
      /\ snd (API.getCoordinates h city p)
         = mkPage (data p) (readings p) (calls p ++ [GeocodingRequest city])).
Proof.
  split.
  - intros Hwf. unfold API.getCoordinates, bind, lift. rewrite Hwf. reflexivity.
  - intros Hwf.
    unfold API.getCoordinates, bind, lift, await_fetch, await_json, throw, ret.
    rewrite Hwf. cbv beta iota.
    repeat (break_match; simpl); split;
      first [discriminate | reflexivity | read_throws; discriminate].
Qed.

(** ** getWeather *)





(** ** getTemperature *)

(** X10.  Refresh after expiry.  When the entry under the lowercased city
    is older than 300000 ms at the lookup and the call succeeds, the call
    has made the geocoding request and then the weather request, has read
    the clock twice (at the lookup and at the store), and the cache is the
    old one with that entry replaced by the new reading, stamped with the
    second reading of the clock. *)
Theorem getTemperature_refresh (h : Host) (city : jsstring) (p : Page)
    (item : Item) (r : Reading) (p' : Page)
    (Hentry : data p !! toLowerCase h city = Some item)
    (Hold : (now h (readings p) - timestamp item > 300000)%Z)
    (Hrun : API.getTemperature h city p = (Ok r, p')) :
  (exists lat lon,
      calls p' = calls p ++ [GeocodingRequest city; WeatherRequest lat lon])
  /\ readings p' = S (S (readings p))
  /\ data p' = <[toLowerCase h city := mkItem r (now h (S (readings p)))]> (data p).
Proof.
  pose proof (getTemperature_Outcome _ _ _ _ _ Hrun) as Hout.
  inversion Hout as [item' Hl Hf | | | p0 loc p1 t p2 Hget Hgeo Hw]; subst.
  - rewrite Hentry in Hl. injection Hl as <-.
    unfold fresh in Hf. change CONFIG.CACHE_DURATION with 300000%Z in Hf. lia.
  - assert (p0 = mkPage (delete (toLowerCase h city) (data p))
                        (S (readings p)) (calls p)) as ->.
    { rewrite Cache_get_cases, Hentry in Hget.
      destruct (now h (readings p) - timestamp item >? CONFIG.CACHE_DURATION)%Z;
        [congruence | discriminate]. }
    destruct (Stored_calls h city p _ _ _ _ _
                ltac:(rewrite Cache_get_cases, Hentry;
                      destruct (Z.gtb_spec (now h (readings p) - timestamp item)
                                  CONFIG.CACHE_DURATION) as [Hlt | Hle];
                      [reflexivity
                      | change CONFIG.CACHE_DURATION with 300000%Z in Hle; lia])
                Hgeo Hw) as [_ [Hc Hd]].
    destruct (getCoordinates_frame _ _ _ _ _ Hgeo) as [_ [Hr1 _]].
    destruct (getWeather_frame _ _ _ _ _ _ Hw) as [_ [Hr2 _]].
    simpl in *. split; [eauto |]. split; [congruence |].
    rewrite Hd, Hr2, Hr1. apply insert_delete_eq.
Qed.

Lemma getTemperature_refresh_witness :
  data berlinPage !! toLowerCase
    slowHost (units "BERLIN")
  = Some (mkItem berlinReading 1000000)
  /\ readings (snd (API.getTemperature
       slowHost (units "BERLIN") berlinPage))
     = S (S (readings berlinPage)).
Proof.
  split; [vm_compute; reflexivity |].
  apply (getTemperature_refresh
           slowHost (units "BERLIN") berlinPage (mkItem berlinReading 1000000) berlinReading
           (snd (API.getTemperature
              slowHost (units "BERLIN") berlinPage))).
  - vm_compute. reflexivity.
  - vm_compute. reflexivity.
  - vm_compute. reflexivity.
Defined.

(** X11.  Failures are not remembered.  After a failed call the cache has
    nothing under the lowercased city, so the next call for that city (one
    that can be put in a URL) makes the geocoding request again. *)
Theorem getTemperature_failure_not_cached (h : Host) (city : jsstring) (p : Page)
    (e : Error) (p' : Page)
    (Hwf : wellFormed city = true)
    (Hfail : API.getTemperature h city p = (Throw e, p')) :
  data p' !! toLowerCase h city = None
  /\ exists rest,
       calls (snd (API.getTemperature h city p'))
       = calls p' ++ GeocodingRequest city :: rest.
Proof.
  assert (data p' !! toLowerCase h city = None) as Hnone.
  { destruct (getTemperature_data _ _ _ _ _ Hfail) as [Hd | [Hd | [item Hd]]].
    - apply getTemperature_Outcome in Hfail.
      inversion Hfail as [| p0 e0 p1 Hget Hgeo | p0 loc p1 e0 p2 Hget Hgeo Hw |];
        subst.
      + destruct (Cache_get_None _ _ _ _ Hget) as [Hd0 _].
        destruct (getCoordinates_frame _ _ _ _ _ Hgeo) as [Hd1 _].
        rewrite Hd1, Hd0. apply lookup_delete_eq.
      + rewrite (proj2 (proj2 (Stored_calls _ _ _ _ _ _ _ _ Hget Hgeo Hw))).
        apply lookup_delete_eq.
    - rewrite Hd. apply lookup_delete_eq.
    - apply getTemperature_Outcome in Hfail.
      inversion Hfail as [| p0 e0 p1 Hget Hgeo | p0 loc p1 e0 p2 Hget Hgeo Hw |];
        subst.
      + destruct (Cache_get_None _ _ _ _ Hget) as [Hd0 _].
        destruct (getCoordinates_frame _ _ _ _ _ Hgeo) as [Hd1 _].
        rewrite Hd1, Hd0. apply lookup_delete_eq.
      + rewrite (proj2 (proj2 (Stored_calls _ _ _ _ _ _ _ _ Hget Hgeo Hw))).
        apply lookup_delete_eq. }
  split; [exact Hnone |].
  exact (getTemperature_miss_requests h city p' Hnone Hwf).
Qed.

Lemma getTemperature_failure_not_cached_witness :
  API.getTemperature outageHost (units "Berlin") berlinPage
  = (Throw (GeocodingTransportError 503),
     mkPage ∅ 2 [GeocodingRequest (units "Berlin"); WeatherRequest num_52_52 num_13_405;
                 GeocodingRequest (units "Berlin")])
  /\ (∅ : gmap jsstring Item) !! toLowerCase outageHost (units "Berlin") = None.
Proof.
  split; [vm_compute; reflexivity |].
  apply (getTemperature_failure_not_cached outageHost (units "Berlin") berlinPage
           (GeocodingTransportError 503)
           (mkPage ∅ 2 [GeocodingRequest (units "Berlin");
                        WeatherRequest num_52_52 num_13_405;
                        GeocodingRequest (units "Berlin")])).
  - reflexivity.
  - vm_compute. reflexivity.
Defined.

Lemma getCoordinates_errors (h : Host) (city : jsstring) (p : Page)
    (e : Error) (p' : Page) :
  API.getCoordinates h city p = (Throw e, p') ->
  e = URIError /\ wellFormed city = false
  \/ wellFormed city = true
     /\ (e = FetchRejected \/ (exists s, e = GeocodingTransportError s)
         \/ e = BodyRejected \/ e = TypeError \/ e = CityNotFound city).
Proof.
  unfold API.getCoordinates, bind, lift, await_fetch, await_json, throw, ret.
  simpl. repeat (break_match; simpl); intros H; try discriminate;
    injection H as <- <-; try read_throws;
    first [ left; split; reflexivity
          | right; split; [reflexivity |];
            first [ left; reflexivity
                  | right; left; eexists; reflexivity
                  | do 2 right; left; reflexivity
                  | do 3 right; left; reflexivity
                  | do 4 right; reflexivity ] ].
Qed.

Lemma getWeather_errors (h : Host) (lat lon : value) (p : Page)
    (e : Error) (p' : Page) :
  API.getWeather h lat lon p = (Throw e, p') ->
  e = FetchRejected \/ (exists s, e = WeatherTransportError s)
  \/ e = BodyRejected \/ e = TypeError \/ e = DataUnavailable.
Proof.
  unfold API.getWeather, bind, lift, await_fetch, await_json, throw, ret.
  simpl. repeat (break_match; simpl); intros H; try discriminate;
    injection H as <- <-; try read_throws;
    first [ left; reflexivity
          | right; left; eexists; reflexivity
          | do 2 right; left; reflexivity
          | do 3 right; left; reflexivity
          | do 4 right; reflexivity ].
Qed.

(** X12.  What an error of [getTemperature] tells.  It is never one of the
    validation errors.  The URIError means that no request was made; the
    not-found error carries the city as it was passed and, like the
    geocoding status error, means that the geocoding request was made and
    no other; the weather status error and the no-data error mean that the
    geocoding request and then the weather request were made. *)
Theorem getTemperature_error_kinds (h : Host) (city : jsstring) (p : Page)
    (e : Error) (p' : Page)
    (Hfail : API.getTemperature h city p = (Throw e, p')) :
  exists new,
    calls p' = calls p ++ new
    /\ match e with
       | EmptyInput | TooShort | TooLong | InvalidCharacters => False
       | URIError => new = []
       | CityNotFound c => c = city /\ new = [GeocodingRequest city]
       | GeocodingTransportError _ => new = [GeocodingRequest city]
       | WeatherTransportError _ | DataUnavailable =>
           exists lat lon, new = [GeocodingRequest city; WeatherRequest lat lon]
       | FetchRejected | BodyRejected | TypeError =>
           new = [GeocodingRequest city]
           \/ exists lat lon, new = [GeocodingRequest city; WeatherRequest lat lon]
       end.
Proof.
  apply getTemperature_Outcome in Hfail.
  inversion Hfail as [| p0 e0 p1 Hget Hgeo | p0 loc p1 e0 p2 Hget Hgeo Hw |]; subst.
  - destruct (Cache_get_None _ _ _ _ Hget) as [_ [Hc0 _]].
    pose proof (getCoordinates_frame _ _ _ _ _ Hgeo) as [_ [_ Hfr]].
    destruct (getCoordinates_errors _ _ _ _ _ Hgeo)
      as [[-> Hwf] | [Hwf [-> | [[s ->] | [-> | [-> | ->]]]]]];
      destruct Hfr as [[Hwf' [_ Hc]] | [Hwf' Hc]]; try congruence;
      first [ exists []; rewrite app_nil_r; split; [congruence | reflexivity]
            | exists [GeocodingRequest city]; split; [congruence | auto] ].
  - destruct (Stored_calls _ _ _ _ _ _ _ _ Hget Hgeo Hw) as [_ [Hc _]].
    eexists. split; [exact Hc |].
    destruct (getWeather_errors _ _ _ _ _ _ Hw)
      as [-> | [[s ->] | [-> | [-> | ->]]]]; eauto.
Qed.

Lemma getTemperature_error_kinds_witness :
  API.getTemperature berlinHost (units "Atlantis") emptyPage
  = (Throw (CityNotFound (units "Atlantis")),
     mkPage ∅ 0 [GeocodingRequest (units "Atlantis")])
  /\ exists new,
       [GeocodingRequest (units "Atlantis")] = [] ++ new
       /\ units "Atlantis" = units "Atlantis"
       /\ new = [GeocodingRequest (units "Atlantis")].
Proof.
  split; [vm_compute; reflexivity |].
  apply (getTemperature_error_kinds berlinHost (units "Atlantis") emptyPage
           (CityNotFound (units "Atlantis"))
           (mkPage ∅ 0 [GeocodingRequest (units "Atlantis")])).
  vm_compute. reflexivity.
Defined.

(** ** validateCity *)

Lemma trimStart_allWhiteSpace (s : jsstring) :
  trimStart s = [] <-> allWhiteSpace s.
Proof.
  unfold allWhiteSpace. induction s as [|c r IH]; simpl.
  - split; [constructor | reflexivity].
  - destruct (isWhiteSpace c) eqn:Hc.
    + rewrite IH. split.
      * intros Hr. constructor; assumption.
      * intros Hall. inversion Hall; assumption.
    + split; [discriminate |].
      intros Hall. inversion Hall; congruence.
Qed.

Lemma trimStart_skip (pre s : jsstring) :
  allWhiteSpace pre -> trimStart (pre ++ s) = trimStart s.
Proof.
  unfold allWhiteSpace. induction 1 as [|c r Hc Hr IH]; simpl; [reflexivity |].
  rewrite Hc. exact IH.
Qed.

Lemma trimStart_app (s t : jsstring) :
  trimStart s <> [] -> trimStart (s ++ t) = trimStart s ++ t.
Proof.
  induction s as [|c r IH]; simpl; [congruence |].
  destruct (isWhiteSpace c); [exact IH | reflexivity].
Qed.

Lemma trimStart_fixed (c : N) (r : jsstring) :
  isWhiteSpace c = false -> trimStart (c :: r) = c :: r.
Proof. intros Hc. simpl. rewrite Hc. reflexivity. Qed.

Lemma trimEnd_skip (s post : jsstring) :
  allWhiteSpace post -> trimEnd (s ++ post) = trimEnd s.
Proof.
  intros Hpost. unfold trimEnd. rewrite rev_app_distr.
  rewrite trimStart_skip; [reflexivity |]. apply Forall_rev. exact Hpost.
Qed.

(** White space around a string does not show after trimming. *)
Lemma trim_surrounded (pre s post : jsstring) :
  allWhiteSpace pre -> allWhiteSpace post ->
  trim (pre ++ s ++ post) = trim s.
Proof.
  intros Hpre Hpost. unfold trim. rewrite trimStart_skip by exact Hpre.
  destruct (trimStart s) as [|c t] eqn:Hs.
  - assert (trimStart (s ++ post) = []) as ->; [| reflexivity].
    apply trimStart_allWhiteSpace. apply Forall_app. split; [| exact Hpost].
    apply trimStart_allWhiteSpace. exact Hs.
  - rewrite trimStart_app by congruence. rewrite Hs.
    apply trimEnd_skip. exact Hpost.
Qed.

Lemma trim_idempotent (s : jsstring) : trim (trim s) = trim s.
Proof.
  destruct (trim_split s) as [pre [post [Hs [Hpre Hpost]]]].
  rewrite Hs at 2. symmetry. apply trim_surrounded; assumption.
Qed.

(** [validateCity] looks at its argument through [trim] only. *)
Lemma validateCity_trim (a b : jsstring) :
  trim a = trim b -> Validation.validateCity a = Validation.validateCity b.
Proof. intros H. rewrite !validateCity_cases. cbv zeta. rewrite H. reflexivity. Qed.

Lemma validateCity_Ok_fixed (raw q : jsstring) :
  Validation.validateCity raw = Ok q -> Validation.validateCity q = Ok q.
Proof.
  intros Hok.
  assert (q = trim raw) as ->.
  { rewrite validateCity_cases in Hok. cbv zeta in Hok.
    repeat match type of Hok with
           | (if ?b then _ else _) = _ => destruct b; try discriminate
           end.
    congruence. }
  rewrite <- Hok. apply validateCity_trim. apply trim_idempotent.
Qed.

(** X13.  A validated city is valid: validating the string that
    [validateCity] returned returns that same string again. *)
Theorem validateCity_idempotent (raw q : jsstring)
    (Hok : Validation.validateCity raw = Ok q) :
  Validation.validateCity q = Ok q.
Proof. exact (validateCity_Ok_fixed raw q Hok). Qed.

Lemma validateCity_idempotent_witness :
  Validation.validateCity (units "  Berlin  ") = Ok (units "Berlin")
  /\ Validation.validateCity (units "Berlin") = Ok (units "Berlin").
Proof.
  split; [reflexivity |].
  apply (validateCity_idempotent (units "  Berlin  ") (units "Berlin")).
  reflexivity.
Defined.

(** X14.  White space before and after the input makes no difference:
    with any run of white space characters (spaces, tabs, line breaks, the
    no-break space, ...) put in front of a string and any behind it,
    [validateCity] gives what it gives for the string alone, be it the city
    or the error. *)
Theorem validateCity_surrounding_whitespace (pre s post : jsstring)
    (Hpre : allWhiteSpace pre) (Hpost : allWhiteSpace post) :
  Validation.validateCity (pre ++ s ++ post) = Validation.validateCity s.
Proof. apply validateCity_trim. apply trim_surrounded; assumption. Qed.

Lemma validateCity_surrounding_whitespace_witness :
  allWhiteSpace [0x09; 0xA0] /\ allWhiteSpace [0x0A]
  /\ Validation.validateCity ([0x09; 0xA0] ++ units "Bad Homburg" ++ [0x0A])
     = Validation.validateCity (units "Bad Homburg").
Proof.
  assert (allWhiteSpace [0x09; 0xA0]) as Hpre by (repeat constructor).
  assert (allWhiteSpace [0x0A]) as Hpost by (repeat constructor).
  split; [exact Hpre |]. split; [exact Hpost |].
  exact (validateCity_surrounding_whitespace [0x09; 0xA0] (units "Bad Homburg")
           [0x0A] Hpre Hpost).
Defined.

Lemma trim_nil (s : jsstring) : trim s = [] <-> allWhiteSpace s.
Proof.
  split.
  - intros H. apply trimStart_allWhiteSpace.
    destruct (trimStart s) as [|c t] eqn:Hs; [reflexivity |].
    exfalso. unfold trim, trimEnd in H. rewrite Hs in H.
    apply (f_equal (@rev N)) in H. rewrite rev_involutive in H. simpl in H.
    apply trimStart_allWhiteSpace in H. apply Forall_app in H.
    destruct H as [_ H]. inversion H as [|c' t' Hc Ht]; subst.
    pose proof (trimStart_head s c t Hs). congruence.
  - intros H. apply trimStart_allWhiteSpace in H.
    unfold trim. rewrite H. reflexivity.
Qed.

(** X15.  An input is reported as empty exactly when it consists of white
    space only (the empty input included): such an input, however long, is
    never reported as too short, too long or as having invalid
    characters. *)
Theorem validateCity_blank (raw : jsstring) :
  Validation.validateCity raw = Throw EmptyInput <-> allWhiteSpace raw.
Proof.
  rewrite <- trim_nil, validateCity_cases. cbv zeta.
  destruct (decide (trim raw = [])) as [He | Hne]; [tauto |].
  repeat match goal with
         | |- context [if ?b then _ else _] => destruct b
         end; split; intros H; first [discriminate | contradiction].
Qed.

(** X16.  What a validated city is.  The string [validateCity] returns has
    between 2 and 50 code units, all of them in the class of the pattern;
    it begins and ends with a character that is not white space; and it has
    no lone surrogate, so that [getCoordinates] can put it in the URL. *)
Theorem validateCity_result (raw q : jsstring)
    (Hok : Validation.validateCity raw = Ok q) :
  (2 <= length q <= 50)%nat
  /\ (forall c, In c q -> Validation.cityChar c = true)
  /\ (exists c r, q = c :: r /\ isWhiteSpace c = false)
  /\ (exists r c, q = r ++ [c] /\ isWhiteSpace c = false)
  /\ wellFormed q = true.
Proof.
  pose proof (validateCity_wellFormed raw q Hok) as Hwf.
  rewrite validateCity_cases in Hok. cbv zeta in Hok.
  destruct (decide (trim raw = [])) as [| Hne]; [discriminate |].
  destruct (length (trim raw) <? 2)%nat eqn:H2; [discriminate |].
  destruct (50 <? length (trim raw))%nat eqn:H50; [discriminate |].
  destruct (Validation.cityPattern_test (trim raw)) eqn:Ht; [| discriminate].
  injection Hok as <-.
  apply Nat.ltb_ge in H2, H50.
  split; [lia |].
  split; [apply cityPattern_test_true; exact Ht |].
  split; [| split].
  - destruct (trim raw) as [|c r] eqn:Hq; [congruence |].
    exists c, r. split; [reflexivity | exact (trim_head raw c r Hq)].
  - destruct (exists_last Hne) as [r [c Hq]].
    exists r, c. split; [exact Hq | exact (trim_last raw c r Hq)].
  - exact Hwf.
Qed.

Lemma validateCity_result_witness :
  Validation.validateCity (units "  Berlin  ") = Ok (units "Berlin")
  /\ (2 <= length (units "Berlin") <= 50)%nat.
Proof.
  split; [reflexivity |].
  apply (validateCity_result (units "  Berlin  ") (units "Berlin")).
  reflexivity.
Defined.

(** ** handleRequest *)

Local Ltac run_browser :=
  unfold handleRequest, UI.showLoading, UI.showResult, UI.showError, UI.hideLoading,
    bindB, tryCatchB, liftB, retB, onPage, input_value, loading_hidden, error_hide,
    result_content, result_show, button_disabled, preventDefault, withDom.



Local Ltac browser_cases b h event :=
  destruct b as [p [i bt rs er ld] n]; simpl in *;
  run_browser;
  destruct event; simpl;
  (destruct i as [typed |]; simpl;
   [ destruct (Validation.validateCity typed) as [city | e] eqn:Hvalid; simpl;
     [ destruct ld; destruct rs as [[hidden content] |]; simpl;
       destruct er as [[eh ec] |]; destruct bt; simpl;
       try (destruct (API.getTemperature h city p) as [[r | e] p'] eqn:Hrun; simpl;
            try (destruct (isUndefined (r_country r)); simpl;
                 try destruct (truthy (r_country r)) eqn:Htruthy; simpl))
     | destruct ld; destruct rs as [[hidden content] |]; simpl;
       destruct er as [[eh ec] |]; destruct bt; simpl ]
   | destruct ld; destruct rs as [[hidden content] |]; simpl;
     destruct er as [[eh ec] |]; destruct bt; simpl ]).

(** X18.  No request is left hanging.  On a page that has the result
    element and the button, [handleRequest] never rejects: whatever the
    input (even a missing input element), whatever the network does, it
    ends normally, with the button enabled and the loading indicator
    hidden, and it never changes what is typed in the input. *)
Theorem handleRequest_settles (h : Host) (event : bool) (b : Browser)
    (Hresult : DOM.result (dom b) <> None)
    (Hbutton : DOM.button (dom b) <> None) :
  fst (handleRequest h event b) = Ok tt
  /\ DOM.button (dom (snd (handleRequest h event b))) = Some false
  /\ DOM.loading (dom (snd (handleRequest h event b)))
     = match DOM.loading (dom b) with
       | Some _ => Some true
       | None => None
       end
  /\ DOM.input (dom (snd (handleRequest h event b))) = DOM.input (dom b).
Proof.
  browser_cases b h event; try congruence; repeat split; reflexivity.
Qed.

Lemma handleRequest_settles_witness :
  fst (handleRequest outageHost true (mkBrowser berlinPage (freshDom (units "Berlin")) 0))
  = Ok tt.
Proof.
  apply (handleRequest_settles outageHost true
           (mkBrowser berlinPage (freshDom (units "Berlin")) 0));
    discriminate.
Defined.

Lemma handleRequest_page_eq (h : Host) (event : bool) (b : Browser) (raw : jsstring) :
  DOM.input (dom b) = Some raw ->
  DOM.result (dom b) <> None ->
  DOM.button (dom b) <> None ->
  page (snd (handleRequest h event b))
  = match Validation.validateCity raw with
    | Ok city => snd (API.getTemperature h city (page b))
    | Throw _ => page b
    end.
Proof.
  intros Hinput Hresult Hbutton.
  browser_cases b h event; try congruence;
    injection Hinput as <-; rewrite Hvalid; try rewrite Hrun; reflexivity.
Qed.

(** X19.  What a request does to the cache and the network.  On a page
    with the input, the result element and the button, [handleRequest]
    changes the cache, the clock and the log of requests exactly as
    [getTemperature] does for the trimmed input when the input is valid,
    and not at all when it is not. *)
Theorem handleRequest_page (h : Host) (event : bool) (b : Browser) (raw : jsstring)
    (Hinput : DOM.input (dom b) = Some raw)
    (Hresult : DOM.result (dom b) <> None)
    (Hbutton : DOM.button (dom b) <> None) :
  page (snd (handleRequest h event b))
  = match Validation.validateCity raw with
    | Ok city => snd (API.getTemperature h city (page b))
    | Throw _ => page b
    end.
Proof. exact (handleRequest_page_eq h event b raw Hinput Hresult Hbutton). Qed.

Lemma handleRequest_page_witness :
  page (snd (handleRequest berlinHost true
               (mkBrowser emptyPage (freshDom (units "  Berlin  ")) 0)))
  = berlinPage.
Proof.
  rewrite (handleRequest_page berlinHost true
             (mkBrowser emptyPage (freshDom (units "  Berlin  ")) 0)
             (units "  Berlin  ") eq_refl);
    [vm_compute; reflexivity | discriminate | discriminate].
Defined.



(** X21.  A page without the result element or without the button cannot
    be served: every call of [handleRequest] rejects with a TypeError, the
    one thrown while the failure is being shown, and it has made no
    request and not touched the cache. *)
Theorem handleRequest_missing_element (h : Host) (event : bool) (b : Browser)
    (Hmissing : DOM.result (dom b) = None \/ DOM.button (dom b) = None) :
  fst (handleRequest h event b) = Throw TypeError
  /\ page (snd (handleRequest h event b)) = page b.
Proof.
  browser_cases b h event; destruct Hmissing; try congruence;
    split; reflexivity.
Qed.

Lemma handleRequest_missing_element_witness :
  fst (handleRequest berlinHost true
         (mkBrowser emptyPage
            (DOM.mk (Some (units "Berlin")) None (Some (true, Static [])) None None) 0))
  = Throw TypeError.
Proof.
  apply (handleRequest_missing_element berlinHost true
           (mkBrowser emptyPage
              (DOM.mk (Some (units "Berlin")) None (Some (true, Static [])) None None) 0)).
  right. reflexivity.
Defined.

(** ** The session *)

Lemma handleRequest_page_cases (h : Host) (event : bool) (b : Browser) :
  page (snd (handleRequest h event b)) = page b
  \/ exists city,
       Validation.validateCity city = Ok city
       /\ page (snd (handleRequest h event b))
          = snd (API.getTemperature h city (page b)).
Proof.
  browser_cases b h event;
    first [ left; reflexivity
          | right; exists city; rewrite Hrun;
            split; [exact (validateCity_Ok_fixed _ _ Hvalid) | reflexivity] ].
Qed.

Lemma getTemperature_validKeys (h : Host) (city : jsstring) (p : Page) :
  Validation.validateCity city = Ok city ->
  validKeys h p -> validKeys h (snd (API.getTemperature h city p)).
Proof.
  intros Hcity Hinv k Hk.
  destruct (decide (k = toLowerCase h city)) as [-> | Hne]; [eauto |].
  rewrite (getTemperature_other_keys h city p k Hne) in Hk. exact (Hinv k Hk).
Qed.

Lemma validKeys_empty (h : Host) (p : Page) : data p = ∅ -> validKeys h p.
Proof. intros He k [item Hk]. rewrite He, lookup_empty in Hk. discriminate. Qed.

(** X22.  Only valid cities are cached.  Throughout a session (the page
    starts with an empty cache, the user types, and submit, click, keydown
    and beforeunload events are handled one after the other) every key of
    the cache is the lowercase form of a string that [validateCity]
    accepts as it is. *)
Theorem session_cache_keys (h : Host) (b : Browser)
    (Hb : visited h b) :
  validKeys h (page b).
Proof.
  induction Hb as [d | s b Hb IH | ev b Hb IH].
  - apply validKeys_empty. reflexivity.
  - exact IH.
  - assert (forall event, validKeys h (page (snd (handleRequest h event b)))) as Hreq.
    { intros event.
      destruct (handleRequest_page_cases h event b) as [-> | [city [Hcity ->]]];
        [exact IH | exact (getTemperature_validKeys h city _ Hcity IH)]. }
    destruct ev as [| | key |]; simpl.
    + apply Hreq.
    + apply Hreq.
    + destruct (decide (key = units "Enter")); [| exact IH].
      unfold bindB, preventDefault. cbv beta iota.
      destruct (handleRequest_page_cases h false
                  (mkBrowser (page b) (dom b) (S (prevented b))))
        as [Heq | [city [Hcity Heq]]]; simpl in Heq; rewrite Heq;
        [exact IH | exact (getTemperature_validKeys h city _ Hcity IH)].
    + apply validKeys_empty. reflexivity.
Qed.

Lemma session_cache_keys_witness :
  visited berlinHost
    (snd (dispatch berlinHost Submit
            (typing (units "  Berlin  ") (mkBrowser emptyPage (freshDom []) 0))))
  /\ validKeys berlinHost
       (page (snd (dispatch berlinHost Submit
                     (typing (units "  Berlin  ")
                        (mkBrowser emptyPage (freshDom []) 0))))).
Proof.
  assert (visited berlinHost
            (snd (dispatch berlinHost Submit
                    (typing (units "  Berlin  ")
                       (mkBrowser emptyPage (freshDom []) 0))))) as Hv.
  { apply visited_event. apply visited_typing. apply visited_start. }
  split; [exact Hv |].
  exact (session_cache_keys berlinHost _ Hv).
Defined.






Lemma getTemperature_new_calls (h : Host) (city : jsstring) (p : Page) :
  exists new,
    calls (snd (API.getTemperature h city p)) = calls p ++ new
    /\ (new = [] \/ new = [GeocodingRequest city]
        \/ exists lat lon, new = [GeocodingRequest city; WeatherRequest lat lon]).
Proof.
  destruct (API.getTemperature h city p) as [res p'] eqn:Hrun. simpl.
  apply getTemperature_Outcome in Hrun.
  inversion Hrun as [item Hl Hf
                    | p0 e p1 Hget Hgeo
                    | p0 loc p1 e p2 Hget Hgeo Hw
                    | p0 loc p1 t p2 Hget Hgeo Hw]; subst.
  - exists []. simpl. rewrite app_nil_r. auto.
  - apply Cache_get_None in Hget. destruct Hget as [_ [Hc0 _]].
    apply getCoordinates_frame in Hgeo.
    destruct Hgeo as [_ [_ [[_ [_ Hc]] | [_ Hc]]]].
    + exists []. rewrite app_nil_r. split; [congruence | auto].
    + exists [GeocodingRequest city]. split; [congruence | auto].
  - destruct (Stored_calls _ _ _ _ _ _ _ _ Hget Hgeo Hw) as [_ [Hc _]].
    eexists. split; [exact Hc |]. right. right. eauto.
  - destruct (Stored_calls _ _ _ _ _ _ _ _ Hget Hgeo Hw) as [_ [Hc _]].
    eexists. split; [exact Hc |]. right. right. eauto.
Qed.

Lemma getTemperature_rounds (h : Host) (city : jsstring) (p : Page) :
  Validation.validateCity city = Ok city ->
  rounds (calls p) -> rounds (calls (snd (API.getTemperature h city p))).
Proof.
  intros Hcity Hr.
  destruct (getTemperature_new_calls h city p)
    as [new [-> [-> | [-> | [lat [lon ->]]]]]].
  - rewrite app_nil_r. exact Hr.
  - apply rounds_geocoding; assumption.
  - apply rounds_both; assumption.
Qed.

Lemma visited_rounds (h : Host) (b : Browser) :
  visited h b -> rounds (calls (page b)).
Proof.
  intros Hb. induction Hb as [d | s b Hb IH | ev b Hb IH].
  - constructor.
  - exact IH.
  - assert (forall event b', page b' = page b ->
                             rounds (calls (page (snd (handleRequest h event b')))))
      as Hreq.
    { intros event b' Hb'.
      destruct (handleRequest_page_cases h event b') as [-> | [city [Hcity ->]]];
        rewrite Hb'; [exact IH | exact (getTemperature_rounds h city _ Hcity IH)]. }
    destruct ev as [| | key |]; simpl.
    + apply Hreq. reflexivity.
    + apply Hreq. reflexivity.
    + destruct (decide (key = units "Enter")); [| exact IH].
      unfold bindB, preventDefault. cbv beta iota. apply Hreq. reflexivity.
    + exact IH.
Qed.

Lemma rounds_geocoding_valid (l : list Request) (city : jsstring) :
  rounds l -> In (GeocodingRequest city) l -> Validation.validateCity city = Ok city.
Proof.
  induction 1 as [| l c Hr IH Hc | l c lat lon Hr IH Hc]; intros Hin.
  - destruct Hin.
  - apply in_app_or in Hin. destruct Hin as [Hin | [Heq | []]]; [auto |].
    injection Heq as <-. exact Hc.
  - apply in_app_or in Hin. destruct Hin as [Hin | [Heq | [Heq | []]]];
      [auto | | discriminate].
    injection Heq as <-. exact Hc.
Qed.

Lemma rounds_weather_follows (l : list Request) :
  rounds l ->
  forall l1 lat lon l2,
    l = l1 ++ WeatherRequest lat lon :: l2 ->
    exists l0 city, l1 = l0 ++ [GeocodingRequest city].
Proof.
  induction 1 as [| l c Hr IH Hc | l c lat' lon' Hr IH Hc];
    intros l1 lat lon l2 Heq.
  - destruct l1; discriminate.
  - destruct l2 as [| x l2' _] using rev_ind.
    + apply app_inj_tail in Heq. destruct Heq as [_ Heq]. discriminate.
    + rewrite app_comm_cons, app_assoc in Heq.
      apply app_inj_tail in Heq. destruct Heq as [Heq _].
      exact (IH _ _ _ _ Heq).
  - change [GeocodingRequest c; WeatherRequest lat' lon']
      with ([GeocodingRequest c] ++ [WeatherRequest lat' lon']) in Heq.
    rewrite app_assoc in Heq.
    destruct l2 as [| x l2' _] using rev_ind.
    + apply app_inj_tail in Heq. destruct Heq as [Heq _]. eauto.
    + rewrite app_comm_cons, app_assoc in Heq.
      apply app_inj_tail in Heq. destruct Heq as [Heq _].
      destruct l2' as [| y l2'' _] using rev_ind.
      * apply app_inj_tail in Heq. destruct Heq as [_ Heq]. discriminate.
      * rewrite app_comm_cons, app_assoc in Heq.
        apply app_inj_tail in Heq. destruct Heq as [Heq _].
        exact (IH _ _ _ _ Heq).
Qed.

(** X25.  What goes out to the network in a session.  Every geocoding
    request ever made is for a string that [validateCity] accepts as it
    is (trimmed, 2 to 50 characters of the allowed class), and every
    weather request comes directly after a geocoding request. *)
Theorem session_requests (h : Host) (b : Browser)
    (Hb : visited h b) :
  (forall city,
      In (GeocodingRequest city) (calls (page b)) ->
      Validation.validateCity city = Ok city)
  /\ (forall l1 lat lon l2,
        calls (page b) = l1 ++ WeatherRequest lat lon :: l2 ->
        exists l0 city, l1 = l0 ++ [GeocodingRequest city]).
Proof.
  pose proof (visited_rounds h b Hb) as Hr. split.
  - intros city. exact (rounds_geocoding_valid _ city Hr).
  - exact (rounds_weather_follows _ Hr).
Qed.

Lemma session_requests_witness :
  visited berlinHost
    (snd (dispatch berlinHost (KeyDown (units "Enter"))
            (typing (units "  Berlin  ") (mkBrowser emptyPage (freshDom []) 0))))
  /\ calls (page (snd (dispatch berlinHost (KeyDown (units "Enter"))
                        (typing (units "  Berlin  ")
                           (mkBrowser emptyPage (freshDom []) 0)))))
     = [GeocodingRequest (units "Berlin"); WeatherRequest num_52_52 num_13_405]
  /\ Validation.validateCity (units "Berlin") = Ok (units "Berlin").
Proof.
  assert (visited berlinHost
            (snd (dispatch berlinHost (KeyDown (units "Enter"))
                    (typing (units "  Berlin  ")
                       (mkBrowser emptyPage (freshDom []) 0))))) as Hv.
  { apply visited_event. apply visited_typing. apply visited_start. }
  split; [exact Hv |]. split; [vm_compute; reflexivity |].
  apply (proj1 (session_requests berlinHost _ Hv) (units "Berlin")).
  vm_compute. left. reflexivity.
Defined.
